(** * CodeCrackr: the multi-provider AI orchestration layer

    A shallow embedding of [services/ai_providers/base.py],
    [openai_provider.py], [gemini_provider.py], [openrouter_provider.py]
    and [services/ai_manager.py], and of the caller of the manager, the
    admin blueprint [admin/__init__.py].

    Python values are modelled as follows.
    - [str] is [string]; [len] is [String.length] and the slice [s[:n]] is
      [substring 0 n s].
    - A [dict] built by a literal or by [json.loads] is a [Json.value]
      (an insertion-ordered association list under [Json.Obj]).
    - A raised exception is the [Raise] case of [result]; [try/except
      Exception] is a match on it.
    - What the code only reaches through a library or the network (importing
      an SDK, the remote call, [json.loads]) is a field of [world]; the
      theorems hold for every [world].  The content of a reply is a [str]
      or [None] ([option string]).
    - [Json.loads] is a reading of JSON text used for the closed runs. *)

From Stdlib Require Import String Ascii List Bool Arith ZArith Lia.
From Stdlib Require Import DecimalString.
Import ListNotations.
Local Open Scope string_scope.

(** ** Characters that cannot be written inside a literal *)

Definition dquote : ascii := "034"%char.
Definition backslash : ascii := "092"%char.
Definition nl : string := String "010"%char EmptyString.
Definition quoted (s : string) : string :=
  String dquote (s ++ String dquote EmptyString).

(** ** Exceptions and the error monad *)

Inductive exn : Type :=
| TypeError (cls : string) (abstract : list string)
    (* "Can't instantiate abstract class cls with abstract methods ..." *)
| JSONDecodeError
| ImportError
| BackendError (msg : string).
    (* anything the client library, the transport or raise_for_status raises *)

Inductive result (A : Type) : Type :=
| Ok (a : A)
| Raise (e : exn).
Arguments Ok {A} a.
Arguments Raise {A} e.

Definition bind {A B : Type} (c : result A) (k : A -> result B) : result B :=
  match c with
  | Ok a => k a
  | Raise e => Raise e
  end.

Notation "x <- c ;; k" := (bind c (fun x => k))
  (at level 61, c at next level, right associativity).

(** Truthiness of an optional string: [bool(None)] and [bool('')] are false. *)
Definition truthy (s : option string) : bool :=
  match s with
  | Some (String _ _) => true
  | _ => false
  end.

(** [str(n)] for an int. *)
Definition str_of_int (z : Z) : string :=
  NilZero.string_of_int (Z.to_int z).

(** [sep.join(l)] *)
Fixpoint join (sep : string) (l : list string) : string :=
  match l with
  | [] => EmptyString
  | [x] => x
  | x :: rest => x ++ sep ++ join sep rest
  end.

(** ** Insertion-ordered dicts with string keys *)

Section Dict.
Context {A : Type}.

(** [d.get(k)] *)
Fixpoint dict_get (k : string) (d : list (string * A)) : option A :=
  match d with
  | [] => None
  | (k', v) :: rest => if String.eqb k k' then Some v else dict_get k rest
  end.

(** [d[k] = v]: an existing key keeps its position. *)
Fixpoint dict_set (k : string) (v : A) (d : list (string * A))
  : list (string * A) :=
  match d with
  | [] => [(k, v)]
  | (k', v') :: rest =>
      if String.eqb k k' then (k, v) :: rest else (k', v') :: dict_set k v rest
  end.

(** [list(d.keys())] *)
Definition dict_keys (d : list (string * A)) : list string := map fst d.
End Dict.

(** ** JSON values: dict literals and the results of [json.loads] *)

Module Json.

#[warnings="-register-all"] Inductive value : Type :=
| Null
| Bool (b : bool)
| Int (z : Z)
| Float (lexeme : string)
| Str (s : string)
| Arr (items : list value)
| Obj (members : list (string * value)).

(** [d.get(k)]: [None] when the key is absent (or [d] is not a dict). *)
Definition get (k : string) (d : value) : option value :=
  match d with
  | Obj m => dict_get k m
  | _ => None
  end.

Definition is_null (v : value) : bool :=
  match v with
  | Null => true
  | _ => false
  end.

(** *** A recursive-descent reading of JSON text

    The grammar of RFC 8259 as Python's decoder reads it: whitespace,
    the three literals, numbers (kept as [Int] when they have neither
    fraction nor exponent), strings with the single-character escapes,
    arrays and objects (a repeated key keeps its last value).  Escapes of
    the form [\uXXXX] are outside the character model and are rejected.
    The recursion carries a bound taken from the length of the text. *)

Definition is_ws (c : ascii) : bool :=
  match nat_of_ascii c with
  | 32 | 9 | 10 | 13 => true
  | _ => false
  end.

Definition is_digit (c : ascii) : bool :=
  let n := nat_of_ascii c in ((48 <=? n)%nat && (n <=? 57)%nat)%bool.

Fixpoint skip_ws (s : string) : string :=
  match s with
  | String c r => if is_ws c then skip_ws r else s
  | EmptyString => s
  end.

Fixpoint span_digits (s : string) : string * string :=
  match s with
  | String c r =>
      if is_digit c
      then let (ds, rest) := span_digits r in (String c ds, rest)
      else (EmptyString, s)
  | EmptyString => (EmptyString, s)
  end.

Fixpoint digits_value (ds : string) (acc : Z) : Z :=
  match ds with
  | String c r => digits_value r (10 * acc + Z.of_nat (nat_of_ascii c - 48))
  | EmptyString => acc
  end.

(** [s] starts with [p]: the rest after [p]. *)
Fixpoint strip_prefix (p s : string) : option string :=
  match p, s with
  | EmptyString, _ => Some s
  | String a p', String b s' =>
      if Ascii.eqb a b then strip_prefix p' s' else None
  | String _ _, EmptyString => None
  end.

Definition unescape (c : ascii) : option ascii :=
  match nat_of_ascii c with
  | 34 => Some dquote
  | 92 => Some backslash
  | 47 => Some "/"%char
  | 98 => Some "008"%char
  | 102 => Some "012"%char
  | 110 => Some "010"%char
  | 114 => Some "013"%char
  | 116 => Some "009"%char
  | _ => None
  end.

(** The text after an opening quote, up to the closing one. *)
Fixpoint parse_string_body (s : string) : option (string * string) :=
  match s with
  | EmptyString => None
  | String c r =>
      if Ascii.eqb c dquote then Some (EmptyString, r)
      else if Ascii.eqb c backslash then
        match r with
        | String e r' =>
            match unescape e, parse_string_body r' with
            | Some ch, Some (body, rest) => Some (String ch body, rest)
            | _, _ => None
            end
        | EmptyString => None
        end
      else if (nat_of_ascii c <? 32)%nat then None
      else
        match parse_string_body r with
        | Some (body, rest) => Some (String c body, rest)
        | None => None
        end
  end.

(** An optional sign, an integer part without a leading zero (or a lone
    zero), an optional fraction and an optional exponent. *)
Definition parse_number (s : string) : option (value * string) :=
  let (sign, s1) :=
    match s with
    | String "-"%char r => ("-", r)
    | _ => (EmptyString, s)
    end in
  let (ip, s2) :=
    match s1 with
    | String "0"%char r => ("0", r)
    | _ => span_digits s1
    end in
  match ip with
  | EmptyString => None
  | _ =>
      let (frac, s3) :=
        match s2 with
        | String "."%char r =>
            match span_digits r with
            | (EmptyString, _) => (EmptyString, s2)
            | (ds, rest) => (String "."%char ds, rest)
            end
        | _ => (EmptyString, s2)
        end in
      let (ex, s4) :=
        match s3 with
        | String e r =>
            if (Ascii.eqb e "e"%char || Ascii.eqb e "E"%char)%bool then
              let (sg, r1) :=
                match r with
                | String "+"%char r' => ("+", r')
                | String "-"%char r' => ("-", r')
                | _ => (EmptyString, r)
                end in
              match span_digits r1 with
              | (EmptyString, _) => (EmptyString, s3)
              | (ds, rest) => (String e (sg ++ ds), rest)
              end
            else (EmptyString, s3)
        | EmptyString => (EmptyString, s3)
        end in
      match frac, ex with
      | EmptyString, EmptyString =>
          let n := digits_value ip 0 in
          Some (Int (match sign with EmptyString => n | _ => (- n)%Z end), s4)
      | _, _ => Some (Float (sign ++ ip ++ frac ++ ex), s4)
      end
  end.

Definition parse_literal (s : string) : option (value * string) :=
  match strip_prefix "null" s with
  | Some r => Some (Null, r)
  | None =>
  match strip_prefix "true" s with
  | Some r => Some (Bool true, r)
  | None =>
  match strip_prefix "false" s with
  | Some r => Some (Bool false, r)
  | None =>
  match strip_prefix "NaN" s with
  | Some r => Some (Float "NaN", r)
  | None =>
  match strip_prefix "Infinity" s with
  | Some r => Some (Float "Infinity", r)
  | None =>
  match strip_prefix "-Infinity" s with
  | Some r => Some (Float "-Infinity", r)
  | None => parse_number s
  end end end end end end.

Fixpoint parse_value (fuel : nat) (s : string) : option (value * string) :=
  match fuel with
  | O => None
  | S n =>
      match skip_ws s with
      | EmptyString => None
      | String c r =>
          if Ascii.eqb c dquote then
            match parse_string_body r with
            | Some (body, rest) => Some (Str body, rest)
            | None => None
            end
          else if Ascii.eqb c "["%char then
            match skip_ws r with
            | String "]"%char rest => Some (Arr [], rest)
            | _ => parse_items n r []
            end
          else if Ascii.eqb c "{"%char then
            match skip_ws r with
            | String "}"%char rest => Some (Obj [], rest)
            | _ => parse_members n r []
            end
          else parse_literal (String c r)
      end
  end
with parse_items (fuel : nat) (s : string) (acc : list value)
  : option (value * string) :=
  match fuel with
  | O => None
  | S n =>
      match parse_value n s with
      | Some (v, r) =>
          match skip_ws r with
          | String ","%char rest => parse_items n rest (acc ++ [v])
          | String "]"%char rest => Some (Arr (acc ++ [v]), rest)
          | _ => None
          end
      | None => None
      end
  end
with parse_members (fuel : nat) (s : string) (acc : list (string * value))
  : option (value * string) :=
  match fuel with
  | O => None
  | S n =>
      match skip_ws s with
      | String c r =>
          if Ascii.eqb c dquote then
            match parse_string_body r with
            | Some (key, r1) =>
                match skip_ws r1 with
                | String ":"%char r2 =>
                    match parse_value n r2 with
                    | Some (v, r3) =>
                        match skip_ws r3 with
                        | String ","%char rest =>
                            parse_members n rest (dict_set key v acc)
                        | String "}"%char rest =>
                            Some (Obj (dict_set key v acc), rest)
                        | _ => None
                        end
                    | None => None
                    end
                | _ => None
                end
            | None => None
            end
          else None
      | EmptyString => None
      end
  end.

(** [json.loads(s)]: one value, then only whitespace. *)
Definition loads (s : string) : result value :=
  match parse_value (S (String.length s)) s with
  | Some (v, rest) =>
      match skip_ws rest with
      | EmptyString => Ok v
      | String _ _ => Raise JSONDecodeError
      end
  | None => Raise JSONDecodeError
  end.

End Json.

(** ** [re.search(r"\{.*\}", s, re.DOTALL)]

    The matcher tries every start position from the left.  At a position
    that holds an opening brace the greedy [.*] first takes the whole rest
    of the text and gives characters back until a closing brace follows. *)

Module re.

(** The longest prefix of [t] that ends with a closing brace. *)
Fixpoint greedy_to_brace (t : string) : option string :=
  match t with
  | EmptyString => None
  | String c t' =>
      match greedy_to_brace t' with
      | Some m => Some (String c m)
      | None => if Ascii.eqb c "}"%char then Some "}" else None
      end
  end.

Definition match_here (s : string) : option string :=
  match s with
  | String c t =>
      if Ascii.eqb c "{"%char then
        match greedy_to_brace t with
        | Some m => Some (String c m)
        | None => None
        end
      else None
  | EmptyString => None
  end.

(** [m.group()] of the first match, [None] when there is none. *)
Fixpoint search (s : string) : option string :=
  match match_here s with
  | Some m => Some m
  | None =>
      match s with
      | EmptyString => None
      | String _ t => search t
      end
  end.

End re.

(** ** Abstract base classes

    [ABCMeta] computes [__abstractmethods__] when a class is created: the
    names the class body marks with [@abstractmethod], and the inherited
    abstract names that the class body does not define.  Creating an
    instance of a class whose set is not empty raises [TypeError]. *)

Module ABC.

#[warnings="-register-all"] Inductive pyclass : Type :=
| Class (name : string) (base : option pyclass)
        (abstract_defs concrete_defs : list string).

Definition class_name (c : pyclass) : string :=
  match c with Class n _ _ _ => n end.

Definition mem (n : string) (l : list string) : bool :=
  existsb (String.eqb n) l.

Fixpoint abstractmethods (c : pyclass) : list string :=
  match c with
  | Class _ base abs conc =>
      abs ++
      match base with
      | None => []
      | Some b =>
          filter (fun n => negb (mem n (abs ++ conc))) (abstractmethods b)
      end
  end.

Definition instantiate (c : pyclass) : result unit :=
  match abstractmethods c with
  | [] => Ok tt
  | ms => Raise (TypeError (class_name c) ms)
  end.

End ABC.

(** ** The inputs handed over by the repository walker *)

Record file_info : Type := {
  f_path : string;
  f_name : string;
  f_language : string;
  f_size : Z;
  f_lines : Z;
  f_content : string
}.

Record repo_data : Type := {
  r_name : string;
  r_languages : list (string * Z);   (* language -> number of files *)
  r_size_mb : string;                (* the float, by its decimal text *)
  r_file_count : Z
}.

Definition languages_dict (r : repo_data) : Json.value :=
  Json.Obj (map (fun kv => (fst kv, Json.Int (snd kv))) (r_languages r)).

(** ** Requests

    An f-string is kept as its fragments: literal text, and the two
    library renderings that occur in the prompts. *)

Inductive fragment : Type :=
| Text (s : string)
| JsonDumps (v : Json.value)      (* json.dumps(v, indent=2) *)
| StrOf (v : Json.value).         (* str(v), as an f-string renders a dict *)

Definition text : Type := list fragment.

Record message : Type := { role : string; content : text }.

Record chat_body : Type := {
  model : string;
  messages : list message;
  temperature : string;
  max_tokens : Z
}.

Inductive request : Type :=
| ChatCompletion_create (body : chat_body)
| requests_post (url : string) (headers : list (string * string))
                (json : chat_body)
| generate_content (msg : text).

(** The text a request carries for the model to work on: the content of
    the user message, or Gemini's single message. *)
Definition user_content (r : request) : text :=
  let of_body b :=
    match find (fun m => String.eqb (role m) "user") (messages b) with
    | Some m => content m
    | None => []
    end in
  match r with
  | ChatCompletion_create b => of_body b
  | requests_post _ _ b => of_body b
  | generate_content m => m
  end.

(** ** What lies outside the program *)

Record world : Type := {
  (* [import openai] succeeds *)
  import_openai : bool;
  (* [import google.generativeai], [configure] and [GenerativeModel] succeed *)
  import_genai : bool;
  (* the remote call together with the extraction of the content of the
     reply, a str or None; [Raise] is a transport failure, a non-2xx
     status or a malformed body *)
  backend_reply : request -> result (option string);
  (* [json.loads] *)
  json_loads : string -> result Json.value
}.

(** ** Provider instances *)

Inductive backend : Type := OpenAI | Gemini | OpenRouter | Mock.

Record provider : Type := {
  cls : backend;
  name : string;
  api_key : option string;
  enabled : bool;
  client : bool   (* [self.client] (OpenAI) or [self.model] (Gemini) is set *)
}.

Definition set_client (self : provider) (b : bool) : provider :=
  {| cls := cls self; name := name self; api_key := api_key self;
     enabled := enabled self; client := b |}.

Definition set_enabled (self : provider) (b : bool) : provider :=
  {| cls := cls self; name := name self; api_key := api_key self;
     enabled := b; client := client self |}.

Record usage_info : Type := {
  u_name : string;
  u_enabled : bool;
  u_has_api_key : bool
}.

(** The six keys of a file analysis. *)
Definition analysis_keys : list string :=
  ["file_name"; "description"; "key_components"; "purpose"; "dependencies";
   "complexity"].

(** The dict every adapter returns when the reply holds no block, or when
    the block does not parse (the same literal at each place). *)
Definition wrapped_text (fi : file_info) (result : string) : Json.value :=
  Json.Obj [("file_name", Json.Str (f_name fi));
            ("description", Json.Str result);
            ("key_components", Json.Arr []);
            ("purpose", Json.Str "File analysis");
            ("dependencies", Json.Arr []);
            ("complexity", Json.Str "medium")].

(** The [try] around [re.search] and [json.loads] in [generate_file_analysis]. *)
Definition normalize_file_analysis (W : world) (fi : file_info)
  (result : string) : Json.value :=
  match re.search result with
  | Some json_match =>
      match json_loads W json_match with
      | Ok v => v
      | Raise _ => wrapped_text fi result
      end
  | None => wrapped_text fi result
  end.

(** The dict of the [except] branch when the content of the reply is
    [None]: [re.search] raises [TypeError] on it, the inner [except]
    catches that, and ["description": result] stores the [None]. *)
Definition wrapped_null (fi : file_info) : Json.value :=
  Json.Obj [("file_name", Json.Str (f_name fi));
            ("description", Json.Null);
            ("key_components", Json.Arr []);
            ("purpose", Json.Str "File analysis");
            ("dependencies", Json.Arr []);
            ("complexity", Json.Str "medium")].

(** The inner [try ... except] of [generate_file_analysis] on the content
    of the reply, a str or [None]. *)
Definition file_analysis_of_content (W : world) (fi : file_info)
  (result : option string) : Json.value :=
  match result with
  | Some text => normalize_file_analysis W fi text
  | None => wrapped_null fi
  end.

(** The same [try] in [generate_repository_summary]; [mock] is the
    adapter's own [_mock_repository_summary(repo_data)]. *)
Definition normalize_repository_summary (W : world) (mock : Json.value)
  (result : string) : Json.value :=
  match re.search result with
  | Some json_match =>
      match json_loads W json_match with
      | Ok v => v
      | Raise _ => mock
      end
  | None => mock
  end.

(** The inner [try ... except] of [generate_repository_summary] on the
    content of the reply: on [None] the [TypeError] of [re.search] is
    caught and the mock is returned. *)
Definition repository_summary_of_content (W : world) (mock : Json.value)
  (result : option string) : Json.value :=
  match result with
  | Some text => normalize_repository_summary W mock text
  | None => mock
  end.

Definition truncation_marker : string := "... [truncated]".

(** [if len(content) > 4000: content = content[:4000] + "... [truncated]"] *)
Definition capped (content : string) : string :=
  if (4000 <? String.length content)%nat
  then substring 0 4000 content ++ truncation_marker
  else content.

Module AIProvider.

Definition class : ABC.pyclass :=
  ABC.Class "AIProvider" None
    ["generate_file_analysis"; "generate_repository_summary";
     "generate_architecture_diagram"; "is_available"]
    ["__init__"; "get_usage_info"].

Definition init (c : backend) (name : string) (api_key : option string)
  : provider :=
  {| cls := c; name := name; api_key := api_key;
     enabled := truthy api_key; client := false |}.

(** The body under [@abstractmethod]; a subclass that does not define
    [is_available] would run it. *)
Definition is_available (self : provider) : bool := enabled self.

Definition get_usage_info (self : provider) : usage_info :=
  {| u_name := name self; u_enabled := enabled self;
     u_has_api_key := truthy (api_key self) |}.

End AIProvider.

(** The parts of the mock results that all four classes share. *)
Definition mock_repository_summary_with (overview : string) (rd : repo_data)
  : Json.value :=
  Json.Obj
    [("repository_name", Json.Str (r_name rd));
     ("overview", Json.Str overview);
     ("architecture",
        Json.Obj [("description", Json.Str "Modular architecture")]);
     ("key_features",
        Json.Arr [Json.Obj [("name", Json.Str "Core");
                            ("description", Json.Str "Main features")]]);
     ("tutorial_sections",
        Json.Arr [Json.Obj [("title", Json.Str "Getting Started");
                            ("description", Json.Str "Introduction");
                            ("difficulty", Json.Str "beginner")]]);
     ("learning_path",
        Json.Arr [Json.Obj [("step", Json.Int 1);
                            ("title", Json.Str "Overview");
                            ("description", Json.Str "Understand the project")]]);
     ("technical_stack",
        Json.Arr (map Json.Str (dict_keys (r_languages rd))));
     ("complexity_level", Json.Str "medium")].

Definition mock_architecture_diagram_with (label : string) (rd : repo_data)
  : string :=
  "graph TD" ++ nl ++
  "    A[" ++ r_name rd ++ "] --> B[" ++ label ++ "]" ++ nl ++
  "    B --> C[Files: " ++ str_of_int (r_file_count rd) ++ "]" ++ nl ++
  "    B --> D[Languages: " ++ join ", " (dict_keys (r_languages rd)) ++ "]".

Definition mock_file_analysis_with (who : string) (fi : file_info)
  : Json.value :=
  Json.Obj
    [("file_name", Json.Str (f_name fi));
     ("description",
        Json.Str (who ++ " analysis for " ++ f_language fi ++ " file"));
     ("key_components",
        Json.Arr [Json.Obj [("name", Json.Str "main");
                            ("type", Json.Str "function");
                            ("description", Json.Str "Main functionality");
                            ("line_number", Json.Int 1)]]);
     ("purpose", Json.Str "Core functionality");
     ("dependencies", Json.Arr [Json.Str "standard library"]);
     ("complexity", Json.Str "medium")].

Definition file_analysis_prompt : string :=
  "You are an expert code analyst. Analyze the provided code file and generate a comprehensive tutorial-style explanation in JSON format.".

Definition repository_summary_prompt : string :=
  "You are a technical writer. Generate a comprehensive repository summary and tutorial structure in JSON format.".

Definition diagram_prompt : string :=
  "Generate a Mermaid diagram showing the high-level architecture of this repository.".

(** [f"Analyze this {file_info['language']} file: {file_info['name']}\n\n"] *)
Definition analyze_this (fi : file_info) : string :=
  "Analyze this " ++ f_language fi ++ " file: " ++ f_name fi ++ nl ++ nl.

(** The [repo_info] dict of [generate_repository_summary]. *)
Definition repo_info (rd : repo_data) : Json.value :=
  Json.Obj [("name", Json.Str (r_name rd));
            ("languages", languages_dict rd);
            ("file_count", Json.Int (r_file_count rd));
            ("size_mb", Json.Float (r_size_mb rd))].

(** ** [OpenAIProvider] *)

Module OpenAIProvider.

Definition class : ABC.pyclass :=
  ABC.Class "OpenAIProvider" (Some AIProvider.class) []
    ["__init__"; "is_available"; "generate_file_analysis";
     "generate_repository_summary"; "generate_architecture_diagram";
     "_get_file_analysis_prompt"; "_get_repository_summary_prompt";
     "_mock_file_analysis"; "_mock_repository_summary";
     "_mock_architecture_diagram"].

Definition init (W : world) (api_key : option string) : provider :=
  let self := AIProvider.init OpenAI "OpenAI" api_key in
  if truthy api_key then
    if import_openai W then set_client self true
    else set_enabled self false
  else self.

Definition new (W : world) (api_key : option string) : result provider :=
  _ <- ABC.instantiate class ;; Ok (init W api_key).

Definition is_available (self : provider) : bool :=
  enabled self && client self.

Definition _mock_file_analysis (fi : file_info) : Json.value :=
  mock_file_analysis_with "OpenAI" fi.

Definition _mock_repository_summary (rd : repo_data) : Json.value :=
  mock_repository_summary_with "OpenAI-powered repository analysis" rd.

Definition _mock_architecture_diagram (rd : repo_data) : string :=
  mock_architecture_diagram_with "OpenAI Analysis" rd.

Definition chat (system : string) (user : text) (limit : Z) : request :=
  ChatCompletion_create
    {| model := "gpt-4o";
       messages := [ {| role := "system"; content := [Text system] |};
                     {| role := "user"; content := user |} ];
       temperature := "0.1";
       max_tokens := limit |}.

Definition file_analysis_request (self : provider) (fi : file_info)
  : request :=
  let prompt := file_analysis_prompt in
  let content := capped (f_content fi) in
  chat prompt [Text (analyze_this fi ++ content)] 1000.

Definition generate_file_analysis (W : world) (self : provider)
  (fi : file_info) : Json.value :=
  if negb (is_available self) then _mock_file_analysis fi
  else
    match backend_reply W (file_analysis_request self fi) with
    | Ok result => file_analysis_of_content W fi result
    | Raise _ => _mock_file_analysis fi
    end.

Definition repository_summary_request (self : provider) (rd : repo_data)
  (file_analyses : list Json.value) : request :=
  let prompt := repository_summary_prompt in
  chat prompt [Text "Generate summary for: "; JsonDumps (repo_info rd)] 2000.

Definition generate_repository_summary (W : world) (self : provider)
  (rd : repo_data) (file_analyses : list Json.value) : Json.value :=
  if negb (is_available self) then _mock_repository_summary rd
  else
    match backend_reply W (repository_summary_request self rd file_analyses) with
    | Ok result =>
        repository_summary_of_content W (_mock_repository_summary rd) result
    | Raise _ => _mock_repository_summary rd
    end.

Definition architecture_diagram_request (self : provider) (rd : repo_data)
  : request :=
  chat diagram_prompt
    [Text ("Repository: " ++ r_name rd ++ ", Languages: ");
     StrOf (languages_dict rd)] 500.

Definition generate_architecture_diagram (W : world) (self : provider)
  (rd : repo_data) : option string :=
  if negb (is_available self) then Some (_mock_architecture_diagram rd)
  else
    match backend_reply W (architecture_diagram_request self rd) with
    | Ok result => result
    | Raise _ => Some (_mock_architecture_diagram rd)
    end.

End OpenAIProvider.

(** ** [GeminiProvider] *)

Module GeminiProvider.

Definition class : ABC.pyclass :=
  ABC.Class "GeminiProvider" (Some AIProvider.class) []
    ["__init__"; "is_available"; "generate_file_analysis";
     "generate_repository_summary"; "generate_architecture_diagram";
     "_get_file_analysis_prompt"; "_get_repository_summary_prompt";
     "_mock_file_analysis"; "_mock_repository_summary";
     "_mock_architecture_diagram"].

Definition init (W : world) (api_key : option string) : provider :=
  let self := AIProvider.init Gemini "Gemini" api_key in
  if truthy api_key then
    if import_genai W then set_client self true
    else set_enabled self false
  else self.

Definition new (W : world) (api_key : option string) : result provider :=
  _ <- ABC.instantiate class ;; Ok (init W api_key).

Definition is_available (self : provider) : bool :=
  enabled self && client self.

Definition _mock_file_analysis (fi : file_info) : Json.value :=
  mock_file_analysis_with "Gemini" fi.

Definition _mock_repository_summary (rd : repo_data) : Json.value :=
  mock_repository_summary_with "Gemini-powered repository analysis" rd.

Definition _mock_architecture_diagram (rd : repo_data) : string :=
  mock_architecture_diagram_with "Gemini Analysis" rd.

Definition file_analysis_request (self : provider) (fi : file_info)
  : request :=
  let prompt := file_analysis_prompt in
  let content := capped (f_content fi) in
  generate_content [Text (prompt ++ nl ++ analyze_this fi ++ content)].

Definition generate_file_analysis (W : world) (self : provider)
  (fi : file_info) : Json.value :=
  if negb (is_available self) then _mock_file_analysis fi
  else
    match backend_reply W (file_analysis_request self fi) with
    | Ok result => file_analysis_of_content W fi result
    | Raise _ => _mock_file_analysis fi
    end.

Definition repository_summary_request (self : provider) (rd : repo_data)
  (file_analyses : list Json.value) : request :=
  let prompt := repository_summary_prompt in
  generate_content
    [Text (prompt ++ nl ++ "Generate summary for: "); JsonDumps (repo_info rd)].

Definition generate_repository_summary (W : world) (self : provider)
  (rd : repo_data) (file_analyses : list Json.value) : Json.value :=
  if negb (is_available self) then _mock_repository_summary rd
  else
    match backend_reply W (repository_summary_request self rd file_analyses) with
    | Ok result =>
        repository_summary_of_content W (_mock_repository_summary rd) result
    | Raise _ => _mock_repository_summary rd
    end.

Definition architecture_diagram_request (self : provider) (rd : repo_data)
  : request :=
  generate_content
    [Text (diagram_prompt ++ nl ++ "Repository: " ++ r_name rd
           ++ ", Languages: ");
     StrOf (languages_dict rd)].

Definition generate_architecture_diagram (W : world) (self : provider)
  (rd : repo_data) : option string :=
  if negb (is_available self) then Some (_mock_architecture_diagram rd)
  else
    match backend_reply W (architecture_diagram_request self rd) with
    | Ok result => result
    | Raise _ => Some (_mock_architecture_diagram rd)
    end.

End GeminiProvider.

(** ** [OpenRouterProvider]

    The class body defines no [is_available]. *)

Module OpenRouterProvider.

Definition class : ABC.pyclass :=
  ABC.Class "OpenRouterProvider" (Some AIProvider.class) []
    ["__init__"; "generate_file_analysis";
     "generate_repository_summary"; "generate_architecture_diagram";
     "_get_file_analysis_prompt"; "_get_repository_summary_prompt";
     "_mock_file_analysis"; "_mock_repository_summary";
     "_mock_architecture_diagram"].

Definition base_url : string :=
  "https://openrouter.ai/api/v1/chat/completions".

Definition init (W : world) (api_key : option string) : provider :=
  AIProvider.init OpenRouter "OpenRouter" api_key.

Definition new (W : world) (api_key : option string) : result provider :=
  _ <- ABC.instantiate class ;; Ok (init W api_key).

(** Inherited. *)
Definition is_available (self : provider) : bool :=
  AIProvider.is_available self.

Definition _mock_file_analysis (fi : file_info) : Json.value :=
  mock_file_analysis_with "OpenRouter" fi.

Definition _mock_repository_summary (rd : repo_data) : Json.value :=
  mock_repository_summary_with "OpenRouter-powered repository analysis" rd.

Definition _mock_architecture_diagram (rd : repo_data) : string :=
  mock_architecture_diagram_with "OpenRouter Analysis" rd.

Definition post (self : provider) (system : string) (user : text)
  (limit : Z) : request :=
  requests_post base_url
    [("Authorization",
        "Bearer " ++ match api_key self with Some k => k | None => "None" end);
     ("Content-Type", "application/json");
     ("HTTP-Referer", "https://codecrackr.app");
     ("X-Title", "CodeCrackr")]
    {| model := "openai/gpt-4o-mini";
       messages := [ {| role := "system"; content := [Text system] |};
                     {| role := "user"; content := user |} ];
       temperature := "0.1";
       max_tokens := limit |}.

Definition file_analysis_request (self : provider) (fi : file_info)
  : request :=
  let prompt := file_analysis_prompt in
  let content := capped (f_content fi) in
  post self prompt [Text (analyze_this fi ++ content)] 1000.

Definition generate_file_analysis (W : world) (self : provider)
  (fi : file_info) : Json.value :=
  if negb (is_available self) then _mock_file_analysis fi
  else
    match backend_reply W (file_analysis_request self fi) with
    | Ok result => file_analysis_of_content W fi result
    | Raise _ => _mock_file_analysis fi
    end.

Definition repository_summary_request (self : provider) (rd : repo_data)
  (file_analyses : list Json.value) : request :=
  let prompt := repository_summary_prompt in
  post self prompt
    [Text "Generate summary for: "; JsonDumps (repo_info rd)] 2000.

Definition generate_repository_summary (W : world) (self : provider)
  (rd : repo_data) (file_analyses : list Json.value) : Json.value :=
  if negb (is_available self) then _mock_repository_summary rd
  else
    match backend_reply W (repository_summary_request self rd file_analyses) with
    | Ok result =>
        repository_summary_of_content W (_mock_repository_summary rd) result
    | Raise _ => _mock_repository_summary rd
    end.

Definition architecture_diagram_request (self : provider) (rd : repo_data)
  : request :=
  post self diagram_prompt
    [Text ("Repository: " ++ r_name rd ++ ", Languages: ");
     StrOf (languages_dict rd)] 500.

Definition generate_architecture_diagram (W : world) (self : provider)
  (rd : repo_data) : option string :=
  if negb (is_available self) then Some (_mock_architecture_diagram rd)
  else
    match backend_reply W (architecture_diagram_request self rd) with
    | Ok result => result
    | Raise _ => Some (_mock_architecture_diagram rd)
    end.

End OpenRouterProvider.

(** ** The [MockProvider] class local to [AIManager._create_mock_provider]

    Its body defines no [is_available] either. *)

Module MockProvider.

Definition class : ABC.pyclass :=
  ABC.Class "MockProvider" (Some AIProvider.class) []
    ["__init__"; "generate_file_analysis";
     "generate_repository_summary"; "generate_architecture_diagram";
     "_mock_file_analysis"; "_mock_repository_summary";
     "_mock_architecture_diagram"].

Definition init : provider :=
  AIProvider.init Mock "Mock" (Some "mock_key").

Definition new : result provider :=
  _ <- ABC.instantiate class ;; Ok init.

Definition is_available (self : provider) : bool :=
  AIProvider.is_available self.

Definition _mock_file_analysis (fi : file_info) : Json.value :=
  Json.Obj
    [("file_name", Json.Str (f_name fi));
     ("description",
        Json.Str ("Mock analysis for " ++ f_language fi ++ " file"));
     ("key_components",
        Json.Arr [Json.Obj [("name", Json.Str "main");
                            ("type", Json.Str "function");
                            ("description", Json.Str "Main functionality")]]);
     ("purpose", Json.Str "Core functionality");
     ("dependencies", Json.Arr [Json.Str "standard library"]);
     ("complexity", Json.Str "medium")].

Definition _mock_repository_summary (rd : repo_data) : Json.value :=
  mock_repository_summary_with "Mock repository analysis" rd.

Definition _mock_architecture_diagram (rd : repo_data) : string :=
  mock_architecture_diagram_with "Mock Analysis" rd.

Definition generate_file_analysis (fi : file_info) : Json.value :=
  _mock_file_analysis fi.

Definition generate_repository_summary (rd : repo_data)
  (file_analyses : list Json.value) : Json.value :=
  _mock_repository_summary rd.

Definition generate_architecture_diagram (rd : repo_data) : string :=
  _mock_architecture_diagram rd.

End MockProvider.

(** ** Method calls on a provider object: dispatch on its class *)

Module Provider.

Definition class_of (b : backend) : ABC.pyclass :=
  match b with
  | OpenAI => OpenAIProvider.class
  | Gemini => GeminiProvider.class
  | OpenRouter => OpenRouterProvider.class
  | Mock => MockProvider.class
  end.

(** [__init__] run on a fresh object of the class. *)
Definition init (W : world) (b : backend) (api_key : option string)
  : provider :=
  match b with
  | OpenAI => OpenAIProvider.init W api_key
  | Gemini => GeminiProvider.init W api_key
  | OpenRouter => OpenRouterProvider.init W api_key
  | Mock => MockProvider.init
  end.

Definition is_available (self : provider) : bool :=
  match cls self with
  | OpenAI => OpenAIProvider.is_available self
  | Gemini => GeminiProvider.is_available self
  | OpenRouter => OpenRouterProvider.is_available self
  | Mock => MockProvider.is_available self
  end.

Definition _mock_file_analysis (self : provider) (fi : file_info)
  : Json.value :=
  match cls self with
  | OpenAI => OpenAIProvider._mock_file_analysis fi
  | Gemini => GeminiProvider._mock_file_analysis fi
  | OpenRouter => OpenRouterProvider._mock_file_analysis fi
  | Mock => MockProvider._mock_file_analysis fi
  end.

Definition _mock_repository_summary (self : provider) (rd : repo_data)
  : Json.value :=
  match cls self with
  | OpenAI => OpenAIProvider._mock_repository_summary rd
  | Gemini => GeminiProvider._mock_repository_summary rd
  | OpenRouter => OpenRouterProvider._mock_repository_summary rd
  | Mock => MockProvider._mock_repository_summary rd
  end.

(** The value of a diagram call is a str or [None]; a mock is always a
    str. *)
Definition _mock_architecture_diagram (self : provider) (rd : repo_data)
  : option string :=
  match cls self with
  | OpenAI => Some (OpenAIProvider._mock_architecture_diagram rd)
  | Gemini => Some (GeminiProvider._mock_architecture_diagram rd)
  | OpenRouter => Some (OpenRouterProvider._mock_architecture_diagram rd)
  | Mock => Some (MockProvider._mock_architecture_diagram rd)
  end.

(** The request a real adapter builds; the Mock class builds none. *)
Definition file_analysis_request (self : provider) (fi : file_info)
  : option request :=
  match cls self with
  | OpenAI => Some (OpenAIProvider.file_analysis_request self fi)
  | Gemini => Some (GeminiProvider.file_analysis_request self fi)
  | OpenRouter => Some (OpenRouterProvider.file_analysis_request self fi)
  | Mock => None
  end.

Definition repository_summary_request (self : provider) (rd : repo_data)
  (file_analyses : list Json.value) : option request :=
  match cls self with
  | OpenAI =>
      Some (OpenAIProvider.repository_summary_request self rd file_analyses)
  | Gemini =>
      Some (GeminiProvider.repository_summary_request self rd file_analyses)
  | OpenRouter =>
      Some (OpenRouterProvider.repository_summary_request self rd file_analyses)
  | Mock => None
  end.

Definition generate_file_analysis (W : world) (self : provider)
  (fi : file_info) : Json.value :=
  match cls self with
  | OpenAI => OpenAIProvider.generate_file_analysis W self fi
  | Gemini => GeminiProvider.generate_file_analysis W self fi
  | OpenRouter => OpenRouterProvider.generate_file_analysis W self fi
  | Mock => MockProvider.generate_file_analysis fi
  end.

Definition generate_repository_summary (W : world) (self : provider)
  (rd : repo_data) (file_analyses : list Json.value) : Json.value :=
  match cls self with
  | OpenAI => OpenAIProvider.generate_repository_summary W self rd file_analyses
  | Gemini => GeminiProvider.generate_repository_summary W self rd file_analyses
  | OpenRouter =>
      OpenRouterProvider.generate_repository_summary W self rd file_analyses
  | Mock => MockProvider.generate_repository_summary rd file_analyses
  end.

Definition generate_architecture_diagram (W : world) (self : provider)
  (rd : repo_data) : option string :=
  match cls self with
  | OpenAI => OpenAIProvider.generate_architecture_diagram W self rd
  | Gemini => GeminiProvider.generate_architecture_diagram W self rd
  | OpenRouter => OpenRouterProvider.generate_architecture_diagram W self rd
  | Mock => Some (MockProvider.generate_architecture_diagram rd)
  end.

End Provider.

(** ** [Config]: the three credentials read from the environment *)

Record Config : Type := {
  OPENAI_API_KEY : option string;
  OPENROUTER_API_KEY : option string;
  GEMINI_API_KEY : option string
}.

(** The credential a class of adapter is built from. *)
Definition credential (cfg : Config) (b : backend) : option string :=
  match b with
  | OpenAI => OPENAI_API_KEY cfg
  | Gemini => GEMINI_API_KEY cfg
  | OpenRouter => OPENROUTER_API_KEY cfg
  | Mock => Some "mock_key"
  end.

(** ** [AIManager] *)

Module AIManager.

Record t : Type := {
  config : Config;
  providers : list (string * provider)
}.

Definition load_providers (W : world) (cfg : Config)
  : result (list (string * provider)) :=
  let providers := [] in
  providers <-
    (if truthy (OPENAI_API_KEY cfg)
     then p <- OpenAIProvider.new W (OPENAI_API_KEY cfg) ;;
          Ok (dict_set "openai" p providers)
     else Ok providers) ;;
  providers <-
    (if truthy (GEMINI_API_KEY cfg)
     then p <- GeminiProvider.new W (GEMINI_API_KEY cfg) ;;
          Ok (dict_set "gemini" p providers)
     else Ok providers) ;;
  providers <-
    (if truthy (OPENROUTER_API_KEY cfg)
     then p <- OpenRouterProvider.new W (OPENROUTER_API_KEY cfg) ;;
          Ok (dict_set "openrouter" p providers)
     else Ok providers) ;;
  Ok providers.

(** [AIManager()] *)
Definition new (W : world) (cfg : Config) : result t :=
  providers <- load_providers W cfg ;;
  Ok {| config := cfg; providers := providers |}.

Definition get_available_providers (self : t) : list string :=
  map fst (filter (fun np => Provider.is_available (snd np)) (providers self)).

Definition _create_mock_provider : result provider := MockProvider.new.

(** The first [if] of [get_provider]: the adapter it returns at once. *)
Definition requested (self : t) (provider_name : option string)
  : option provider :=
  match provider_name with
  | Some n =>
      if truthy provider_name then
        match dict_get n (providers self) with
        | Some provider =>
            if Provider.is_available provider then Some provider else None
        | None => None
        end
      else None
  | None => None
  end.

(** The [for] loop of [get_provider]. *)
Definition first_available (self : t) : option provider :=
  match find (fun np => Provider.is_available (snd np)) (providers self) with
  | Some (_, provider) => Some provider
  | None => None
  end.

Definition get_provider (self : t) (provider_name : option string)
  : result provider :=
  match requested self provider_name with
  | Some provider => Ok provider
  | None =>
      match first_available self with
      | Some provider => Ok provider
      | None => _create_mock_provider
      end
  end.

(** An instance of a class without [__bool__] and [__len__] is true, so
    [if provider:] always takes the delegating branch. *)
Definition generate_file_analysis (W : world) (self : t) (fi : file_info)
  (provider_name : option string) : result Json.value :=
  provider <- get_provider self provider_name ;;
  Ok (Provider.generate_file_analysis W provider fi).

Definition generate_repository_summary (W : world) (self : t)
  (rd : repo_data) (file_analyses : list Json.value)
  (provider_name : option string) : result Json.value :=
  provider <- get_provider self provider_name ;;
  Ok (Provider.generate_repository_summary W provider rd file_analyses).

Definition generate_architecture_diagram (W : world) (self : t)
  (rd : repo_data) (provider_name : option string)
  : result (option string) :=
  provider <- get_provider self provider_name ;;
  Ok (Provider.generate_architecture_diagram W provider rd).

Definition get_provider_status (self : t) : list (string * usage_info) :=
  map (fun np => (fst np, AIProvider.get_usage_info (snd np)))
      (providers self).

End AIManager.

(** ** Predicates the properties are stated with *)

(** Every key of a file analysis is present and not [None]. *)
Definition fully_populated (r : Json.value) : bool :=
  forallb (fun k =>
             match Json.get k r with
             | Some v => negb (Json.is_null v)
             | None => false
             end) analysis_keys.

(** The character [c] occurs in [s]. *)
Fixpoint occurs (c : ascii) (s : string) : bool :=
  match s with
  | EmptyString => false
  | String a r => Ascii.eqb a c || occurs c r
  end.

(** [s] holds an opening brace with a closing brace somewhere after it. *)
Definition has_brace_block (s : string) : Prop :=
  exists a b c, s = a ++ "{" ++ b ++ "}" ++ c.

(** What precedes the content excerpt in the text sent for a file: the
    Gemini adapter sends the prompt in the same message. *)
Definition request_preamble (b : backend) (fi : file_info) : string :=
  match b with
  | Gemini => file_analysis_prompt ++ nl ++ analyze_this fi
  | _ => analyze_this fi
  end.

(** Concrete surroundings for closed runs. *)

Definition no_credentials : Config :=
  {| OPENAI_API_KEY := None; OPENROUTER_API_KEY := None;
     GEMINI_API_KEY := None |}.

Definition openai_only : Config :=
  {| OPENAI_API_KEY := Some "sk-test"; OPENROUTER_API_KEY := None;
     GEMINI_API_KEY := None |}.

Definition openrouter_only : Config :=
  {| OPENAI_API_KEY := None; OPENROUTER_API_KEY := Some "or-test";
     GEMINI_API_KEY := None |}.

(** Both SDKs import, the backend answers every request with [reply]. *)
Definition replying (reply : string) : world :=
  {| import_openai := true; import_genai := true;
     backend_reply := fun _ => Ok (Some reply);
     json_loads := Json.loads |}.

(** The same answers in a process where neither SDK can be imported. *)
Definition replying_without_sdk (reply : string) : world :=
  {| import_openai := false; import_genai := false;
     backend_reply := fun _ => Ok (Some reply);
     json_loads := Json.loads |}.

(** Both SDKs import, the content of every reply is [None]. *)
Definition null_content : world :=
  {| import_openai := true; import_genai := true;
     backend_reply := fun _ => Ok None;
     json_loads := Json.loads |}.

(** Both SDKs import, every remote call fails. *)
Definition unreachable : world :=
  {| import_openai := true; import_genai := true;
     backend_reply := fun _ => Raise (BackendError "HTTP 503");
     json_loads := Json.loads |}.

Definition app_py : file_info :=
  {| f_path := "app.py"; f_name := "app.py"; f_language := "python";
     f_size := 8; f_lines := 1; f_content := "print(1)" |}.

Definition demo_repo : repo_data :=
  {| r_name := "demo"; r_languages := [("python", 1%Z)];
     r_size_mb := "0.01"; r_file_count := 1 |}.

Definition openai_ready : provider :=
  OpenAIProvider.init (replying "ok") (Some "sk-test").

Definition openai_manager : AIManager.t :=
  {| AIManager.config := openai_only;
     AIManager.providers := [("openai", openai_ready)] |}.

Definition empty_manager : AIManager.t :=
  {| AIManager.config := no_credentials; AIManager.providers := [] |}.

Definition abstract_mock : exn := TypeError "MockProvider" ["is_available"].

Definition abstract_openrouter : exn :=
  TypeError "OpenRouterProvider" ["is_available"].

Definition prose_reply : string :=
  "Here is the analysis: {" ++ quoted "file_name" ++ ": " ++ quoted "app.py"
  ++ "} Hope it helps".

(** [n] copies of the letter x. *)
Fixpoint xs (n : nat) : string :=
  match n with
  | O => EmptyString
  | S k => String "x"%char (xs k)
  end.

Definition long_file : file_info :=
  {| f_path := "big.txt"; f_name := "big.txt"; f_language := "text";
     f_size := 4001; f_lines := 1; f_content := xs 4001 |}.

(** ** Further definitions *)

(** The request a real adapter builds for a diagram; the Mock class
    builds none. *)
Definition architecture_diagram_request (self : provider) (rd : repo_data)
  : option request :=
  match cls self with
  | OpenAI => Some (OpenAIProvider.architecture_diagram_request self rd)
  | Gemini => Some (GeminiProvider.architecture_diagram_request self rd)
  | OpenRouter => Some (OpenRouterProvider.architecture_diagram_request self rd)
  | Mock => None
  end.

(** [RepoAnalyzer._analyze_single_file] stores ['content': content[:10000]]. *)
Definition walker_content (content : string) : string :=
  substring 0 (10 * 1000) content.

(** The adapters of a manager that pass [is_available], in registration
    order: the pairs the comprehension of [get_available_providers] keeps. *)
Definition available_entries (m : AIManager.t) : list (string * provider) :=
  filter (fun np => Provider.is_available (snd np)) (AIManager.providers m).

Definition both_configured : Config :=
  {| OPENAI_API_KEY := Some "sk-test"; OPENROUTER_API_KEY := None;
     GEMINI_API_KEY := Some "g-test" |}.

Definition openai_without_sdk : provider :=
  OpenAIProvider.init (replying_without_sdk "ok") (Some "sk-test").

Definition gemini_ready : provider :=
  GeminiProvider.init (replying "ok") (Some "g-test").

Definition both_manager : AIManager.t :=
  {| AIManager.config := both_configured;
     AIManager.providers := [("openai", openai_ready); ("gemini", gemini_ready)] |}.

Definition sdk_missing_manager : AIManager.t :=
  {| AIManager.config := openai_only;
     AIManager.providers := [("openai", openai_without_sdk)] |}.

(** ** The admin blueprint, the caller of [AIManager]

    [admin/__init__.py].  A view is a function of the request and of the
    state it can touch: [os.environ] and the Flask session.  The class
    attributes of [Config] were bound when [config.py] was imported, so a
    [Config()] made inside a view is the same [Config] for the life of the
    process, whatever is written to [os.environ] afterwards. *)

(** [del d[k]] / [d.pop(k, None)] *)
Fixpoint dict_del {A : Type} (k : string) (d : list (string * A))
  : list (string * A) :=
  match d with
  | [] => []
  | (k', v) :: rest =>
      if String.eqb k k' then rest else (k', v) :: dict_del k rest
  end.

(** [str.isspace] on one character. *)
Definition is_space (c : ascii) : bool :=
  let n := nat_of_ascii c in
  (((9 <=? n)%nat && (n <=? 13)%nat) || ((28 <=? n)%nat && (n <=? 32)%nat)
   || (n =? 133)%nat || (n =? 160)%nat)%bool.

Fixpoint lstrip (s : string) : string :=
  match s with
  | String c r => if is_space c then lstrip r else s
  | EmptyString => EmptyString
  end.

Fixpoint rstrip (s : string) : string :=
  match s with
  | EmptyString => EmptyString
  | String c r =>
      match rstrip r with
      | EmptyString => if is_space c then EmptyString else String c EmptyString
      | r' => String c r'
      end
  end.

(** [s.strip()] *)
Definition strip (s : string) : string := rstrip (lstrip s).

(** [s.upper()] on the letters a to z. *)
Fixpoint upper (s : string) : string :=
  match s with
  | EmptyString => EmptyString
  | String c r =>
      let n := nat_of_ascii c in
      String (if ((97 <=? n)%nat && (n <=? 122)%nat)%bool
              then ascii_of_nat (n - 32) else c)
             (upper r)
  end.

(** The names that the body of [class Config] binds. *)
Definition Config_names : list string :=
  ["SECRET_KEY"; "FLASK_ENV"; "DEBUG"; "OPENAI_API_KEY"; "OPENROUTER_API_KEY";
   "GEMINI_API_KEY"; "GITHUB_TOKEN"; "MAX_REPO_SIZE_MB";
   "TEMP_DIR_CLEANUP_HOURS"; "RATE_LIMIT_PER_HOUR"; "DEFAULT_MODEL";
   "MAX_TOKENS"; "TEMPERATURE"; "BASE_DIR"; "TEMP_DIR";
   "SUPPORTED_EXTENSIONS"; "IGNORE_PATTERNS"].

Module admin.

Inductive session_value : Type :=
| SBool (b : bool)
| SStr (s : string).

(** Truth of [session.get(k)]. *)
Definition session_truthy (v : option session_value) : bool :=
  match v with
  | Some (SBool b) => b
  | Some (SStr (String _ _)) => true
  | _ => false
  end.

Record flask_request : Type := {
  method : string;
  form : list (string * string)
}.

Record process : Type := {
  environ : list (string * string);
  session : list (string * session_value)
}.

Inductive response : Type :=
| redirect (endpoint : string)
| login_page (error : option string)
| dashboard_page (providers : list (string * usage_info))
                 (active_provider : session_value).

Inductive outcome : Type :=
| Returned (r : response)
| AttributeError (name : string)   (* 'Config' object has no attribute name *)
| Raised (e : exn).

(** [config.NAME] on a [Config] instance whose attributes are [ns]. *)
Definition getattr (ns : list (string * Json.value)) (name : string)
  : option Json.value := dict_get name ns.

Definition str_eq (s : string) (v : Json.value) : bool :=
  match v with
  | Json.Str t => String.eqb s t
  | _ => false
  end.

Definition form_get (req : flask_request) (k dflt : string) : string :=
  match dict_get k (form req) with
  | Some v => v
  | None => dflt
  end.

Definition login (ns : list (string * Json.value)) (req : flask_request)
  (st : process) : outcome * process :=
  if String.eqb (method req) "POST" then
    let username := form_get req "username" EmptyString in
    let password := form_get req "password" EmptyString in
    match getattr ns "ADMIN_USERNAME" with
    | None => (AttributeError "ADMIN_USERNAME", st)
    | Some admin_username =>
        if str_eq username admin_username then
          match getattr ns "ADMIN_PASSWORD" with
          | None => (AttributeError "ADMIN_PASSWORD", st)
          | Some admin_password =>
              if str_eq password admin_password then
                (Returned (redirect "admin.dashboard"),
                 {| environ := environ st;
                    session := dict_set "admin_authenticated" (SBool true)
                                 (session st) |})
              else (Returned (login_page (Some "Invalid credentials")), st)
          end
        else (Returned (login_page (Some "Invalid credentials")), st)
    end
  else (Returned (login_page None), st).

(** The decorator. *)
Definition login_required
  (view_func : flask_request -> process -> outcome * process)
  (req : flask_request) (st : process) : outcome * process :=
  if negb (session_truthy (dict_get "admin_authenticated" (session st)))
  then (Returned (redirect "admin.login"), st)
  else view_func req st.

(** One round of the loop over the three provider names.  [os.environ]
    refuses a value that holds a NUL character; such a key is outside this
    definition. *)
Definition update_key (req : flask_request) (env : list (string * string))
  (provider : string) : list (string * string) :=
  match dict_get (provider ++ "_key") (form req) with
  | Some key => dict_set (upper provider ++ "_API_KEY") (strip key) env
  | None => env
  end.

Definition dashboard_body (W : world) (cfg : Config) (req : flask_request)
  (st : process) : outcome * process :=
  let st :=
    if String.eqb (method req) "POST" then
      {| environ :=
           fold_left (update_key req) ["openai"; "gemini"; "openrouter"]
                     (environ st);
         session :=
           match dict_get "active_provider" (form req) with
           | Some (String c r) =>
               dict_set "active_provider" (SStr (String c r)) (session st)
           | _ => dict_del "active_provider" (session st)
           end |}
    else st in
  match AIManager.new W cfg with
  | Raise e => (Raised e, st)
  | Ok ai_manager =>
      (Returned
         (dashboard_page (AIManager.get_provider_status ai_manager)
            (match dict_get "active_provider" (session st) with
             | Some v => v
             | None => SStr EmptyString
             end)),
       st)
  end.

Definition dashboard (W : world) (cfg : Config)
  : flask_request -> process -> outcome * process :=
  login_required (dashboard_body W cfg).

(** Requests to the two routes of the blueprint, served one after the
    other on the same state. *)
Inductive call : Type :=
| to_login (req : flask_request)
| to_dashboard (req : flask_request).

Definition serve (W : world) (cfg : Config) (ns : list (string * Json.value))
  (c : call) (st : process) : outcome * process :=
  match c with
  | to_login req => login ns req st
  | to_dashboard req => dashboard W cfg req st
  end.

Fixpoint serve_all (W : world) (cfg : Config)
  (ns : list (string * Json.value)) (calls : list call) (st : process)
  : list outcome * process :=
  match calls with
  | [] => ([], st)
  | c :: rest =>
      let (o, st1) := serve W cfg ns c st in
      let (os, st2) := serve_all W cfg ns rest st1 in
      (o :: os, st2)
  end.

End admin.

(** A namespace with the names of [config.py]; the values play no part. *)
Definition config_namespace : list (string * Json.value) :=
  map (fun n => (n, Json.Null)) Config_names.

Definition fresh_process : admin.process :=
  {| admin.environ := []; admin.session := [] |}.

Definition admin_process : admin.process :=
  {| admin.environ := [("OPENAI_API_KEY", "sk-test")];
     admin.session := [("admin_authenticated", admin.SBool true)] |}.

Definition post_login : admin.flask_request :=
  {| admin.method := "POST";
     admin.form := [("username", "admin"); ("password", "admin")] |}.

Definition post_keys : admin.flask_request :=
  {| admin.method := "POST";
     admin.form := [("openai_key", "  sk-new "); ("gemini_key", "g-new");
                    ("active_provider", "gemini")] |}.

(** * Properties *)

(** ** Strings *)

Lemma occurs_append (c : ascii) (a b : string) :
  occurs c (a ++ b) = occurs c a || occurs c b.
Proof.
  induction a as [|x a IH]; simpl; [reflexivity|].
  rewrite IH. now rewrite orb_assoc.
Qed.

(** A slice [s[:n]] with [n <= len(s)] is a prefix of [s] of length [n]. *)
Lemma substring_prefix (n : nat) : forall s : string,
  n <= String.length s ->
  exists tail, s = substring 0 n s ++ tail
               /\ String.length (substring 0 n s) = n.
Proof.
  induction n as [|n IH]; intros s Hn.
  - exists s. destruct s; simpl; split; reflexivity.
  - destruct s as [|c s]; simpl in Hn; [lia|].
    destruct (IH s) as (tail & Hs & Hl); [lia|].
    exists tail. simpl. split.
    + now rewrite <- Hs.
    + now rewrite Hl.
Qed.

(** ** The search for a brace-delimited block *)

Lemma greedy_none (t : string) :
  re.greedy_to_brace t = None <-> occurs "}"%char t = false.
Proof.
  induction t as [|c t IH]; simpl.
  - tauto.
  - destruct (re.greedy_to_brace t) as [m|].
    + split; [discriminate|].
      intros H. apply orb_false_elim in H. destruct H as [_ H].
      apply IH in H. discriminate.
    + destruct (Ascii.eqb c "}"%char); simpl.
      * split; discriminate.
      * split; intros _; [now apply IH | reflexivity].
Qed.

Lemma greedy_last (b c : string) :
  occurs "}"%char c = false ->
  re.greedy_to_brace (b ++ String "}"%char c) = Some (b ++ "}").
Proof.
  intros Hc. induction b as [|x b IH]; simpl in *.
  - apply greedy_none in Hc. now rewrite Hc.
  - now rewrite IH.
Qed.

Lemma greedy_some (t m : string) :
  re.greedy_to_brace t = Some m ->
  exists b c, t = b ++ String "}"%char c /\ m = b ++ "}"
              /\ occurs "}"%char c = false.
Proof.
  revert m. induction t as [|x t IH]; simpl; intros m H; [discriminate|].
  destruct (re.greedy_to_brace t) as [m'|] eqn:E.
  - injection H as <-. destruct (IH m' eq_refl) as (b & c & -> & -> & Hc).
    exists (String x b), c. simpl. auto.
  - destruct (Ascii.eqb_spec x "}"%char) as [->|]; [|discriminate].
    injection H as <-. exists EmptyString, t. simpl.
    split; [reflexivity|]. split; [reflexivity|]. now apply greedy_none.
Qed.

Lemma search_cons (x : ascii) (s : string) :
  re.search (String x s) =
  match re.match_here (String x s) with
  | Some m => Some m
  | None => re.search s
  end.
Proof. reflexivity. Qed.

(** The match runs from the first opening brace to the last closing one. *)
Lemma search_first_to_last (pre mid post : string) :
  occurs "{"%char pre = false ->
  occurs "}"%char post = false ->
  re.search (pre ++ "{" ++ mid ++ "}" ++ post) = Some ("{" ++ mid ++ "}").
Proof.
  intros Hpre Hpost. induction pre as [|x pre IH].
  - simpl. rewrite (greedy_last mid post Hpost). reflexivity.
  - simpl in Hpre. apply orb_false_elim in Hpre. destruct Hpre as [Hx Hpre].
    change ((String x pre ++ "{" ++ mid ++ "}" ++ post))
      with (String x (pre ++ "{" ++ mid ++ "}" ++ post)).
    rewrite search_cons. unfold re.match_here. rewrite Hx. now apply IH.
Qed.

Lemma search_some (s m : string) :
  re.search s = Some m ->
  exists pre mid post,
    s = pre ++ "{" ++ mid ++ "}" ++ post /\ m = "{" ++ mid ++ "}"
    /\ occurs "{"%char pre = false /\ occurs "}"%char post = false.
Proof.
  revert m. induction s as [|x s IH]; intros m H.
  - discriminate.
  - rewrite search_cons in H. unfold re.match_here in H.
    destruct (Ascii.eqb_spec x "{"%char) as [->|Hx].
    + destruct (re.greedy_to_brace s) as [g|] eqn:E.
      * injection H as <-.
        destruct (greedy_some s g E) as (b & c & -> & -> & Hc).
        exists EmptyString, b, c. simpl. auto.
      * destruct (IH m H) as (pre & mid & post & -> & -> & Hpre & Hpost).
        exfalso. apply greedy_none in E.
        rewrite !occurs_append in E. simpl in E.
        rewrite !orb_true_r in E. discriminate.
    + destruct (IH m H) as (pre & mid & post & -> & -> & Hpre & Hpost).
      exists (String x pre), mid, post. simpl.
      apply Ascii.eqb_neq in Hx. rewrite Hx, Hpre. auto.
Qed.

Lemma search_none (s : string) :
  re.search s = None <-> ~ has_brace_block s.
Proof.
  split.
  - intros H (a & b & c & ->). revert H.
    induction a as [|x a IH]; intros H.
    + simpl in H.
      destruct (re.greedy_to_brace (b ++ String "}" c)) eqn:E;
        [discriminate|].
      apply greedy_none in E. rewrite occurs_append in E. simpl in E.
      rewrite orb_true_r in E. discriminate.
    + change (String x a ++ "{" ++ b ++ "}" ++ c)
        with (String x (a ++ "{" ++ b ++ "}" ++ c)) in H.
      rewrite search_cons in H.
      destruct (re.match_here (String x (a ++ "{" ++ b ++ "}" ++ c)));
        [discriminate|]. now apply IH.
  - intros H. destruct (re.search s) as [m|] eqn:E; [|reflexivity].
    exfalso. apply H.
    destruct (search_some s m E) as (pre & mid & post & -> & _).
    now exists pre, mid, post.
Qed.

(** ** Creating instances *)

Lemma openai_new (W : world) (k : option string) :
  OpenAIProvider.new W k = Ok (OpenAIProvider.init W k).
Proof. reflexivity. Qed.

Lemma gemini_new (W : world) (k : option string) :
  GeminiProvider.new W k = Ok (GeminiProvider.init W k).
Proof. reflexivity. Qed.

Lemma openrouter_new (W : world) (k : option string) :
  OpenRouterProvider.new W k = Raise abstract_openrouter.
Proof. reflexivity. Qed.

Lemma mock_new : MockProvider.new = Raise abstract_mock.
Proof. reflexivity. Qed.

(** A manager that could be built holds adapters of the two classes that
    can be instantiated, each built from a credential that is set. *)
Lemma load_providers_ok (W : world) (cfg : Config)
  (ps : list (string * provider)) :
  AIManager.load_providers W cfg = Ok ps ->
  truthy (OPENROUTER_API_KEY cfg) = false /\
  ps = ((if truthy (OPENAI_API_KEY cfg)
         then [("openai", OpenAIProvider.init W (OPENAI_API_KEY cfg))]
         else []) ++
        (if truthy (GEMINI_API_KEY cfg)
         then [("gemini", GeminiProvider.init W (GEMINI_API_KEY cfg))]
         else []))%list.
Proof.
  unfold AIManager.load_providers.
  rewrite openai_new, gemini_new, openrouter_new.
  destruct (truthy (OPENAI_API_KEY cfg)), (truthy (GEMINI_API_KEY cfg)),
    (truthy (OPENROUTER_API_KEY cfg)); simpl; intros H;
    try discriminate; injection H as <-; split; reflexivity.
Qed.

Lemma init_cls (W : world) (b : backend) (k : option string) :
  cls (Provider.init W b k) = b.
Proof.
  destruct b; simpl; try reflexivity.
  - unfold OpenAIProvider.init.
    destruct (truthy k); [destruct (import_openai W)|]; reflexivity.
  - unfold GeminiProvider.init.
    destruct (truthy k); [destruct (import_genai W)|]; reflexivity.
Qed.

Lemma registered_has_credential (W : world) (cfg : Config) (m : AIManager.t) :
  AIManager.new W cfg = Ok m ->
  forall n p, In (n, p) (AIManager.providers m) ->
    truthy (credential cfg (cls p)) = true
    /\ p = Provider.init W (cls p) (credential cfg (cls p)).
Proof.
  unfold AIManager.new. intros H n p Hin.
  destruct (AIManager.load_providers W cfg) as [ps|e] eqn:E;
    [|discriminate].
  injection H as <-. simpl in Hin.
  destruct (load_providers_ok W cfg ps E) as [_ ->].
  apply in_app_or in Hin.
  destruct Hin as [Hin|Hin].
  - destruct (truthy (OPENAI_API_KEY cfg)) eqn:T; [|contradiction].
    destruct Hin as [Hin|[]]. injection Hin as _ <-.
    pose proof (init_cls W OpenAI (OPENAI_API_KEY cfg)) as C.
    simpl in C. rewrite C. simpl. auto.
  - destruct (truthy (GEMINI_API_KEY cfg)) eqn:T; [|contradiction].
    destruct Hin as [Hin|[]]. injection Hin as _ <-.
    pose proof (init_cls W Gemini (GEMINI_API_KEY cfg)) as C.
    simpl in C. rewrite C. simpl. auto.
Qed.

(** ** Selection *)

Lemma dict_get_In {A : Type} (k : string) (d : list (string * A)) (v : A) :
  dict_get k d = Some v -> In (k, v) d.
Proof.
  induction d as [|[k' v'] d IH]; simpl; [discriminate|].
  destruct (String.eqb_spec k k') as [->|_].
  - intros H. injection H as ->. now left.
  - intros H. right. now apply IH.
Qed.

Lemma requested_some (m : AIManager.t) (name : option string) (p : provider) :
  AIManager.requested m name = Some p ->
  exists n, name = Some n /\ dict_get n (AIManager.providers m) = Some p
            /\ Provider.is_available p = true.
Proof.
  unfold AIManager.requested. destruct name as [n|]; [|discriminate].
  destruct (truthy (Some n)); [|discriminate].
  destruct (dict_get n (AIManager.providers m)) as [q|] eqn:E; [|discriminate].
  destruct (Provider.is_available q) eqn:Av; [|discriminate].
  intros H. injection H as <-. now exists n.
Qed.

Lemma first_available_some (m : AIManager.t) (p : provider) :
  AIManager.first_available m = Some p ->
  exists n, In (n, p) (AIManager.providers m)
            /\ Provider.is_available p = true.
Proof.
  unfold AIManager.first_available.
  destruct (find _ (AIManager.providers m)) as [[n q]|] eqn:E; [|discriminate].
  intros H. injection H as <-. apply find_some in E. now exists n.
Qed.

(** Whatever [get_provider] returns is a registered, available adapter. *)
Lemma get_provider_registered (m : AIManager.t) (name : option string)
  (p : provider) :
  AIManager.get_provider m name = Ok p ->
  exists n, In (n, p) (AIManager.providers m)
            /\ Provider.is_available p = true.
Proof.
  unfold AIManager.get_provider.
  destruct (AIManager.requested m name) as [q|] eqn:R.
  - intros H. injection H as <-.
    destruct (requested_some m name q R) as (n & _ & G & Av).
    exists n. split; [now apply dict_get_In | exact Av].
  - destruct (AIManager.first_available m) as [q|] eqn:F.
    + intros H. injection H as <-. now apply first_available_some.
    + unfold AIManager._create_mock_provider. rewrite mock_new. discriminate.
Qed.

(** A name that is registered and available gets exactly that adapter. *)
Lemma get_provider_requested (m : AIManager.t) (n : string) (p : provider) :
  truthy (Some n) = true ->
  dict_get n (AIManager.providers m) = Some p ->
  Provider.is_available p = true ->
  AIManager.get_provider m (Some n) = Ok p.
Proof.
  intros T G Av. unfold AIManager.get_provider, AIManager.requested.
  now rewrite T, G, Av.
Qed.

(** Otherwise the first available adapter in registration order is taken:
    every adapter registered before it is unavailable. *)
Lemma get_provider_fallback (m : AIManager.t) (name : option string)
  (before after : list (string * provider)) (n : string) (p : provider) :
  AIManager.requested m name = None ->
  AIManager.providers m = (before ++ (n, p) :: after)%list ->
  forallb (fun np => negb (Provider.is_available (snd np))) before = true ->
  Provider.is_available p = true ->
  AIManager.get_provider m name = Ok p.
Proof.
  intros R P B Av. unfold AIManager.get_provider, AIManager.first_available.
  rewrite R, P. clear R P.
  induction before as [|[n' q] before IH]; simpl in *.
  - now rewrite Av.
  - apply andb_prop in B. destruct B as [Hq B].
    apply negb_true_iff in Hq. rewrite Hq. now apply IH.
Qed.

Lemma none_available (m : AIManager.t) (name : option string) :
  AIManager.get_available_providers m = [] ->
  AIManager.requested m name = None /\ AIManager.first_available m = None.
Proof.
  unfold AIManager.get_available_providers. intros H.
  assert (F : forall np, In np (AIManager.providers m) ->
                         Provider.is_available (snd np) = false).
  { intros np Hin. destruct (Provider.is_available (snd np)) eqn:Av; auto.
    assert (In np (filter (fun np => Provider.is_available (snd np))
                          (AIManager.providers m)))
      by (apply filter_In; auto).
    apply (in_map fst) in H0. rewrite H in H0. contradiction. }
  split.
  - destruct (AIManager.requested m name) as [p|] eqn:R; [|reflexivity].
    destruct (requested_some m name p R) as (n & _ & G & Av).
    apply dict_get_In in G. apply F in G. simpl in G. congruence.
  - destruct (AIManager.first_available m) as [p|] eqn:R; [|reflexivity].
    destruct (first_available_some m p R) as (n & Hin & Av).
    apply F in Hin. simpl in Hin. congruence.
Qed.

(** ** Claims *)

(** C10. [OpenRouterProvider] and the manager's [MockProvider] leave the
    abstract [is_available] undefined, so creating an instance of either
    raises [TypeError]; building an [AIManager] raises whenever the
    OpenRouter credential is set, and [get_provider] raises whenever no
    registered adapter is available, where it would build the mock. *)
Theorem abstract_is_available_blocks_instantiation :
  ABC.abstractmethods OpenRouterProvider.class = ["is_available"]
  /\ ABC.abstractmethods MockProvider.class = ["is_available"]
  /\ (forall W k, OpenRouterProvider.new W k = Raise abstract_openrouter)
  /\ MockProvider.new = Raise abstract_mock
  /\ (forall W cfg,
        truthy (OPENROUTER_API_KEY cfg) = true ->
        AIManager.new W cfg = Raise abstract_openrouter)
  /\ (forall m name,
        AIManager.get_available_providers m = [] ->
        AIManager.get_provider m name = Raise abstract_mock).
Proof.
  repeat split; try reflexivity.
  - intros W cfg T. unfold AIManager.new, AIManager.load_providers.
    rewrite openai_new, gemini_new, openrouter_new, T.
    destruct (truthy (OPENAI_API_KEY cfg)), (truthy (GEMINI_API_KEY cfg));
      reflexivity.
  - intros m name H. destruct (none_available m name H) as [R F].
    unfold AIManager.get_provider. now rewrite R, F.
Qed.

Lemma abstract_is_available_blocks_instantiation_witness :
  AIManager.new unreachable openrouter_only = Raise abstract_openrouter
  /\ AIManager.get_provider empty_manager (Some "openai") = Raise abstract_mock.
Proof.
  destruct abstract_is_available_blocks_instantiation
    as (_ & _ & _ & _ & Hnew & Hget).
  split.
  - apply Hnew. reflexivity.
  - apply Hget. reflexivity.
Defined.

(** C1. With no credential configured the manager is built with no adapter,
    and [get_provider] raises [TypeError] instead of returning the Mock
    adapter, whatever name is asked for. *)
Theorem get_provider_without_adapters_raises (W : world)
  (name : option string) :
  AIManager.new W no_credentials = Ok empty_manager
  /\ AIManager.get_provider empty_manager name = Raise abstract_mock.
Proof.
  split; [reflexivity|].
  unfold AIManager.get_provider, AIManager.requested.
  destruct name as [n|]; [destruct (truthy (Some n))|]; reflexivity.
Qed.

(** C2. With no credential configured each of the three entry points of
    the manager raises [TypeError]. *)
Theorem entry_points_without_adapters_raise (W : world) (fi : file_info)
  (rd : repo_data) (file_analyses : list Json.value) (name : option string) :
  AIManager.new W no_credentials = Ok empty_manager
  /\ AIManager.generate_file_analysis W empty_manager fi name
     = Raise abstract_mock
  /\ AIManager.generate_repository_summary W empty_manager rd file_analyses name
     = Raise abstract_mock
  /\ AIManager.generate_architecture_diagram W empty_manager rd name
     = Raise abstract_mock.
Proof.
  assert (G : AIManager.get_provider empty_manager name = Raise abstract_mock).
  { unfold AIManager.get_provider, AIManager.requested.
    destruct name as [n|]; [destruct (truthy (Some n))|]; reflexivity. }
  unfold AIManager.generate_file_analysis,
    AIManager.generate_repository_summary,
    AIManager.generate_architecture_diagram.
  rewrite G. repeat split; reflexivity.
Qed.

(** A failed remote call is caught inside the adapter: each [generate_*]
    method then returns the adapter's own mock result for that task. *)
Lemma transport_error_yields_mock (W : world) (self : provider)
  (fi : file_info) (rd : repo_data) (file_analyses : list Json.value) :
  (forall req, exists e, backend_reply W req = Raise e) ->
  Provider.generate_file_analysis W self fi
  = Provider._mock_file_analysis self fi
  /\ Provider.generate_repository_summary W self rd file_analyses
     = Provider._mock_repository_summary self rd
  /\ Provider.generate_architecture_diagram W self rd
     = Provider._mock_architecture_diagram self rd.
Proof.
  intros H.
  unfold Provider.generate_file_analysis, Provider._mock_file_analysis,
    Provider.generate_repository_summary, Provider._mock_repository_summary,
    Provider.generate_architecture_diagram, Provider._mock_architecture_diagram.
  destruct (cls self); repeat split; try reflexivity;
    unfold OpenAIProvider.generate_file_analysis,
      OpenAIProvider.generate_repository_summary,
      OpenAIProvider.generate_architecture_diagram,
      GeminiProvider.generate_file_analysis,
      GeminiProvider.generate_repository_summary,
      GeminiProvider.generate_architecture_diagram,
      OpenRouterProvider.generate_file_analysis,
      OpenRouterProvider.generate_repository_summary,
      OpenRouterProvider.generate_architecture_diagram;
    match goal with
    | |- (if ?c then _ else _) = _ => destruct c; [reflexivity|]
    end;
    match goal with
    | |- match backend_reply W ?r with _ => _ end = _ =>
        destruct (H r) as [e ->]; reflexivity
    end.
Qed.

(** C8. With no credential configured the status mapping is empty (no
    adapter is reported at all, so none as enabled) and
    [generate_file_analysis] on the [app.py] descriptor raises [TypeError];
    the mock template that was meant to answer would have given the
    expected fields. *)
Theorem no_credentials_scenario (W : world) :
  AIManager.new W no_credentials = Ok empty_manager
  /\ AIManager.get_provider_status empty_manager = []
  /\ AIManager.get_available_providers empty_manager = []
  /\ AIManager.generate_file_analysis W empty_manager app_py None
     = Raise abstract_mock
  /\ Json.get "file_name" (MockProvider._mock_file_analysis app_py)
     = Some (Json.Str "app.py")
  /\ Json.get "description" (MockProvider._mock_file_analysis app_py)
     = Some (Json.Str "Mock analysis for python file")
  /\ Json.get "complexity" (MockProvider._mock_file_analysis app_py)
     = Some (Json.Str "medium").
Proof. repeat split; reflexivity. Qed.

(** C7. A backend whose credential is not set yields an adapter state that
    is not available, is not registered in any manager that could be
    built, and is never what [get_provider] returns. *)
Theorem no_credential_never_selected (W : world) (cfg : Config)
  (b : backend) :
  truthy (credential cfg b) = false ->
  Provider.is_available (Provider.init W b (credential cfg b)) = false
  /\ (forall m n p,
        AIManager.new W cfg = Ok m ->
        In (n, p) (AIManager.providers m) -> cls p <> b)
  /\ (forall m name p,
        AIManager.new W cfg = Ok m ->
        AIManager.get_provider m name = Ok p -> cls p <> b).
Proof.
  intros T.
  assert (R : forall m n p, AIManager.new W cfg = Ok m ->
                In (n, p) (AIManager.providers m) -> cls p <> b).
  { intros m n p Hm Hin E. subst b.
    destruct (registered_has_credential W cfg m Hm n p Hin) as [C _].
    congruence. }
  split; [|split].
  - destruct b; simpl in *.
    + unfold OpenAIProvider.init. rewrite T.
      unfold Provider.is_available, OpenAIProvider.is_available. simpl.
      now rewrite T.
    + unfold GeminiProvider.init. rewrite T.
      unfold Provider.is_available, GeminiProvider.is_available. simpl.
      now rewrite T.
    + unfold OpenRouterProvider.is_available, AIProvider.is_available.
      simpl. exact T.
    + discriminate.
  - exact R.
  - intros m name p Hm Hg.
    destruct (get_provider_registered m name p Hg) as (n & Hin & _).
    now apply (R m n p).
Qed.

Lemma no_credential_never_selected_witness :
  Provider.is_available
    (Provider.init (replying "ok") Gemini (credential openai_only Gemini))
  = false
  /\ cls openai_ready <> Gemini.
Proof.
  destruct (no_credential_never_selected (replying "ok") openai_only Gemini
              eq_refl) as (H1 & _ & H3).
  split; [exact H1|].
  apply (H3 openai_manager None openai_ready); reflexivity.
Defined.

(** C9. The list of file analyses passed to [generate_repository_summary]
    changes neither the request that is built nor the result, for every
    adapter and through the manager; two calls with different lists whose
    requests get the same reply return the same result. *)
Theorem summary_ignores_file_analyses (self : provider) (rd : repo_data)
  (fa1 fa2 : list Json.value) :
  Provider.repository_summary_request self rd fa1
  = Provider.repository_summary_request self rd fa2
  /\ (forall W,
        Provider.generate_repository_summary W self rd fa1
        = Provider.generate_repository_summary W self rd fa2)
  /\ (forall W m name,
        AIManager.generate_repository_summary W m rd fa1 name
        = AIManager.generate_repository_summary W m rd fa2 name)
  /\ (forall W1 W2,
        (forall block, json_loads W1 block = json_loads W2 block) ->
        (forall req,
           Provider.repository_summary_request self rd fa1 = Some req ->
           backend_reply W1 req = backend_reply W2 req) ->
        Provider.generate_repository_summary W1 self rd fa1
        = Provider.generate_repository_summary W2 self rd fa2).
Proof.
  assert (G : forall W p, Provider.generate_repository_summary W p rd fa1
                          = Provider.generate_repository_summary W p rd fa2).
  { intros W p. unfold Provider.generate_repository_summary.
    destruct (cls p); reflexivity. }
  split; [|split; [|split]].
  - unfold Provider.repository_summary_request. destruct (cls self); reflexivity.
  - intros W. apply G.
  - intros W m name. unfold AIManager.generate_repository_summary.
    destruct (AIManager.get_provider m name) as [p|e]; simpl; [|reflexivity].
    now rewrite G.
  - intros W1 W2 HL HB. rewrite <- (G W2 self).
    unfold Provider.generate_repository_summary,
      Provider.repository_summary_request in *.
    destruct (cls self); [| | |reflexivity];
      unfold OpenAIProvider.generate_repository_summary,
        GeminiProvider.generate_repository_summary,
        OpenRouterProvider.generate_repository_summary;
      (match goal with
       | |- (if ?c then _ else _) = _ => destruct c; [reflexivity|]
       end;
       rewrite (HB _ eq_refl);
       match goal with
       | |- match ?r with _ => _ end = _ =>
           destruct r as [[reply|]|e]; [|reflexivity|reflexivity]
       end;
       unfold repository_summary_of_content, normalize_repository_summary;
       destruct (re.search reply) as [block|]; [|reflexivity];
       now rewrite HL).
Qed.

Lemma summary_ignores_file_analyses_witness :
  Provider.generate_repository_summary (replying "No JSON here")
    openai_ready demo_repo []
  = Provider.generate_repository_summary (replying_without_sdk "No JSON here")
      openai_ready demo_repo [Json.Obj [("file_name", Json.Str "app.py")]].
Proof.
  destruct (summary_ignores_file_analyses openai_ready demo_repo []
              [Json.Obj [("file_name", Json.Str "app.py")]])
    as (_ & _ & _ & H).
  apply H; reflexivity.
Defined.


Lemma mock_fully_populated (self : provider) (fi : file_info) :
  fully_populated (Provider._mock_file_analysis self fi) = true.
Proof.
  unfold Provider._mock_file_analysis. destruct (cls self); reflexivity.
Qed.



Lemma capped_spec (content : string) :
  (4000 < String.length content ->
   exists head tail,
     content = head ++ tail /\ String.length head = 4000
     /\ capped content = head ++ "... [truncated]")
  /\ (String.length content <= 4000 -> capped content = content).
Proof.
  unfold capped, truncation_marker.
  destruct (Nat.ltb_spec 4000 (String.length content)) as [L|L].
  - split; [intros _|lia].
    destruct (substring_prefix 4000 content) as (tail & Hs & Hl); [lia|].
    exists (substring 0 4000 content), tail. auto.
  - split; [lia|reflexivity].
Qed.

(** What [generate_file_analysis] of an available real adapter does with
    the backend: it asks for the reply to one request, whose text is the
    preamble followed by the capped content, and turns that reply into its
    result. *)
Lemma file_analysis_call (self : provider) (fi : file_info) :
  cls self <> Mock ->
  Provider.is_available self = true ->
  exists req,
    user_content req
    = [Text (request_preamble (cls self) fi ++ capped (f_content fi))]
    /\ forall W,
         Provider.generate_file_analysis W self fi
         = match backend_reply W req with
           | Ok content => file_analysis_of_content W fi content
           | Raise _ => Provider._mock_file_analysis self fi
           end.
Proof.
  intros NM Av.
  unfold Provider.generate_file_analysis, Provider._mock_file_analysis,
    Provider.is_available in *.
  destruct (cls self); [| | |now elim NM].
  - exists (OpenAIProvider.file_analysis_request self fi).
    split; [reflexivity|]. intros W.
    unfold OpenAIProvider.generate_file_analysis. now rewrite Av.
  - exists (GeminiProvider.file_analysis_request self fi).
    split; [reflexivity|]. intros W.
    unfold GeminiProvider.generate_file_analysis. now rewrite Av.
  - exists (OpenRouterProvider.file_analysis_request self fi).
    split; [reflexivity|]. intros W.
    unfold OpenRouterProvider.generate_file_analysis. now rewrite Av.
Qed.

(** C4. [generate_file_analysis] of an available real adapter puts one
    request to the backend and builds its result from the reply to it.  In
    the text of that request the content excerpt that follows the preamble
    is the first 4000 characters of the content and then the marker when
    the content is longer than 4000 characters, and the content itself
    otherwise. *)
Theorem content_capping (self : provider) (fi : file_info) :
  cls self <> Mock ->
  Provider.is_available self = true ->
  exists req excerpt,
    (forall W,
       Provider.generate_file_analysis W self fi
       = match backend_reply W req with
         | Ok content => file_analysis_of_content W fi content
         | Raise _ => Provider._mock_file_analysis self fi
         end)
    /\ user_content req = [Text (request_preamble (cls self) fi ++ excerpt)]
    /\ (4000 < String.length (f_content fi) ->
        exists head tail,
          f_content fi = head ++ tail /\ String.length head = 4000
          /\ excerpt = head ++ "... [truncated]")
    /\ (String.length (f_content fi) <= 4000 -> excerpt = f_content fi).
Proof.
  intros NM Av. destruct (file_analysis_call self fi NM Av) as (req & U & G).
  exists req, (capped (f_content fi)).
  split; [exact G|]. split; [exact U|]. apply capped_spec.
Qed.

Lemma content_capping_witness :
  exists req excerpt,
    (forall W,
       Provider.generate_file_analysis W openai_ready long_file
       = match backend_reply W req with
         | Ok content => file_analysis_of_content W long_file content
         | Raise _ => Provider._mock_file_analysis openai_ready long_file
         end)
    /\ user_content req
       = [Text (request_preamble OpenAI long_file ++ excerpt)]
    /\ exists head tail,
         f_content long_file = head ++ tail /\ String.length head = 4000
         /\ excerpt = head ++ "... [truncated]".
Proof.
  destruct (content_capping openai_ready long_file)
    as (req & excerpt & G & U & Hlong & _).
  - discriminate.
  - reflexivity.
  - exists req, excerpt. split; [exact G|]. split; [exact U|].
    apply Hlong. vm_compute. lia.
Defined.

(** C6. When the reply of an available adapter is prose around one block
    that starts at the first opening brace and ends at the last closing
    brace of the reply, and the block parses, the match is that block and
    [generate_file_analysis] returns its parsed value. *)
Theorem normalizer_round_trip (W : world) (self : provider) (fi : file_info)
  (req : request) (pre mid post : string) (v : Json.value) :
  Provider.is_available self = true ->
  Provider.file_analysis_request self fi = Some req ->
  occurs "{"%char pre = false ->
  occurs "}"%char post = false ->
  backend_reply W req = Ok (Some (pre ++ "{" ++ mid ++ "}" ++ post)) ->
  json_loads W ("{" ++ mid ++ "}") = Ok v ->
  re.search (pre ++ "{" ++ mid ++ "}" ++ post) = Some ("{" ++ mid ++ "}")
  /\ normalize_file_analysis W fi (pre ++ "{" ++ mid ++ "}" ++ post) = v
  /\ Provider.generate_file_analysis W self fi = v.
Proof.
  intros Av Hreq Hpre Hpost Hreply Hv.
  pose proof (search_first_to_last pre mid post Hpre Hpost) as S.
  assert (N : normalize_file_analysis W fi (pre ++ "{" ++ mid ++ "}" ++ post)
              = v).
  { unfold normalize_file_analysis. now rewrite S, Hv. }
  split; [exact S|]. split; [exact N|].
  unfold Provider.generate_file_analysis, Provider.file_analysis_request,
    Provider.is_available in *.
  destruct (cls self); try discriminate; injection Hreq as <-;
    unfold OpenAIProvider.generate_file_analysis,
      GeminiProvider.generate_file_analysis,
      OpenRouterProvider.generate_file_analysis;
    rewrite Av, Hreply; exact N.
Qed.

Lemma normalizer_round_trip_witness :
  Provider.generate_file_analysis (replying prose_reply) openai_ready app_py
  = Json.Obj [("file_name", Json.Str "app.py")].
Proof.
  refine (proj2 (proj2
    (normalizer_round_trip (replying prose_reply) openai_ready app_py
       (OpenAIProvider.file_analysis_request openai_ready app_py)
       "Here is the analysis: "
       (quoted "file_name" ++ ": " ++ quoted "app.py")
       " Hope it helps"
       (Json.Obj [("file_name", Json.Str "app.py")])
       _ _ _ _ _ _))); reflexivity.
Defined.

(** C5, as the code has it.  For a reply with no brace-delimited block the
    file-analysis result is the wrapped text: its description is the
    reply itself and its two lists are empty.  The repository-summary
    result is the adapter's mock summary: a fixed overview, one-element
    lists of features, sections and steps, and the languages of the
    repository as its technical stack.  Both hold of the normalization and
    of what the [generate_*] methods of an available adapter return on
    such a reply. *)
Theorem no_block_degradation (W : world) (self : provider) (fi : file_info)
  (rd : repo_data) (reply : string) :
  ~ has_brace_block reply ->
  normalize_file_analysis W fi reply = wrapped_text fi reply
  /\ Json.get "description" (normalize_file_analysis W fi reply)
     = Some (Json.Str reply)
  /\ Json.get "key_components" (normalize_file_analysis W fi reply)
     = Some (Json.Arr [])
  /\ Json.get "dependencies" (normalize_file_analysis W fi reply)
     = Some (Json.Arr [])
  /\ normalize_repository_summary W
       (Provider._mock_repository_summary self rd) reply
     = Provider._mock_repository_summary self rd
  /\ (exists overview,
        Json.get "overview" (Provider._mock_repository_summary self rd)
        = Some (Json.Str overview) /\ overview <> EmptyString)
  /\ (exists feature,
        Json.get "key_features" (Provider._mock_repository_summary self rd)
        = Some (Json.Arr [feature]))
  /\ (exists section,
        Json.get "tutorial_sections" (Provider._mock_repository_summary self rd)
        = Some (Json.Arr [section]))
  /\ (exists step,
        Json.get "learning_path" (Provider._mock_repository_summary self rd)
        = Some (Json.Arr [step]))
  /\ Json.get "technical_stack" (Provider._mock_repository_summary self rd)
     = Some (Json.Arr (map Json.Str (dict_keys (r_languages rd))))
  /\ (forall req,
        Provider.is_available self = true ->
        Provider.file_analysis_request self fi = Some req ->
        backend_reply W req = Ok (Some reply) ->
        Provider.generate_file_analysis W self fi = wrapped_text fi reply)
  /\ (forall req file_analyses,
        Provider.is_available self = true ->
        Provider.repository_summary_request self rd file_analyses = Some req ->
        backend_reply W req = Ok (Some reply) ->
        Provider.generate_repository_summary W self rd file_analyses
        = Provider._mock_repository_summary self rd).
Proof.
  intros H. apply search_none in H.
  assert (NF : normalize_file_analysis W fi reply = wrapped_text fi reply)
    by (unfold normalize_file_analysis; now rewrite H).
  assert (NS : forall mock, normalize_repository_summary W mock reply = mock)
    by (intros mock; unfold normalize_repository_summary; now rewrite H).
  rewrite NF, NS.
  split; [reflexivity|]. split; [reflexivity|]. split; [reflexivity|].
  split; [reflexivity|]. split; [reflexivity|].
  split; [unfold Provider._mock_repository_summary; destruct (cls self);
          eexists; (split; [reflexivity|discriminate])|].
  split; [unfold Provider._mock_repository_summary; destruct (cls self);
          eexists; reflexivity|].
  split; [unfold Provider._mock_repository_summary; destruct (cls self);
          eexists; reflexivity|].
  split; [unfold Provider._mock_repository_summary; destruct (cls self);
          eexists; reflexivity|].
  split; [unfold Provider._mock_repository_summary; destruct (cls self);
          reflexivity|].
  split.
  - intros req Av Hreq Hreply.
    unfold Provider.generate_file_analysis, Provider.file_analysis_request,
      Provider.is_available in *.
    destruct (cls self); try discriminate; injection Hreq as <-;
      unfold OpenAIProvider.generate_file_analysis,
        GeminiProvider.generate_file_analysis,
        OpenRouterProvider.generate_file_analysis;
      rewrite Av, Hreply; exact NF.
  - intros req file_analyses Av Hreq Hreply.
    unfold Provider.generate_repository_summary,
      Provider.repository_summary_request,
      Provider._mock_repository_summary, Provider.is_available in *.
    destruct (cls self); try discriminate; injection Hreq as <-;
      unfold OpenAIProvider.generate_repository_summary,
        GeminiProvider.generate_repository_summary,
        OpenRouterProvider.generate_repository_summary;
      rewrite Av, Hreply; apply NS.
Qed.

Lemma no_block_degradation_witness :
  normalize_file_analysis (replying "plain words") app_py "plain words"
  = wrapped_text app_py "plain words"
  /\ normalize_repository_summary (replying "plain words")
       (Provider._mock_repository_summary openai_ready demo_repo) "plain words"
     = Provider._mock_repository_summary openai_ready demo_repo
  /\ Provider.generate_file_analysis (replying "plain words") openai_ready
       app_py
     = wrapped_text app_py "plain words"
  /\ Provider.generate_repository_summary (replying "plain words")
       openai_ready demo_repo []
     = Provider._mock_repository_summary openai_ready demo_repo.
Proof.
  assert (H : ~ has_brace_block "plain words")
    by (apply search_none; reflexivity).
  destruct (no_block_degradation (replying "plain words") openai_ready app_py
              demo_repo "plain words" H)
    as (H1 & _ & _ & _ & H5 & _ & _ & _ & _ & _ & H11 & H12).
  split; [exact H1|]. split; [exact H5|]. split.
  - apply (H11 (OpenAIProvider.file_analysis_request openai_ready app_py));
      reflexivity.
  - apply (H12 (OpenAIProvider.repository_summary_request openai_ready
                  demo_repo []) []); reflexivity.
Defined.

(** C5, as stated, fails on a repository summary: a reply with no block
    gives the mock summary, whose list fields are not empty; and on an
    empty reply the description of the wrapped file analysis is empty. *)
Lemma no_block_summary_is_mock :
  ~ has_brace_block "No JSON here"
  /\ Provider.generate_repository_summary (replying "No JSON here")
       openai_ready demo_repo []
     = OpenAIProvider._mock_repository_summary demo_repo
  /\ Json.get "key_features"
       (Provider.generate_repository_summary (replying "No JSON here")
          openai_ready demo_repo [])
     = Some (Json.Arr [Json.Obj [("name", Json.Str "Core");
                                 ("description", Json.Str "Main features")]])
  /\ ~ has_brace_block EmptyString
  /\ Json.get "description"
       (Provider.generate_file_analysis (replying EmptyString)
          openai_ready app_py)
     = Some (Json.Str EmptyString).
Proof.
  split; [apply search_none; reflexivity|].
  split; [reflexivity|]. split; [reflexivity|].
  split; [apply search_none; reflexivity|reflexivity].
Qed.


(** * Further properties of the adapters and the manager *)

(** ** Slices *)

Lemma substring_0_length (n : nat) : forall s : string,
  String.length (substring 0 n s) = Nat.min n (String.length s).
Proof.
  induction n as [|n IH]; intros [|c s]; simpl; auto.
Qed.

Lemma substring_0_all (n : nat) : forall s : string,
  String.length s <= n -> substring 0 n s = s.
Proof.
  induction n as [|n IH]; intros [|c s] H; simpl in *; try reflexivity.
  - lia.
  - rewrite IH; [reflexivity | lia].
Qed.

Lemma substring_0_twice (n k : nat) : forall s : string,
  n <= k -> substring 0 n (substring 0 k s) = substring 0 n s.
Proof.
  revert k. induction n as [|n IH]; intros k s H.
  - destruct (substring 0 k s), s; reflexivity.
  - destruct k as [|k]; [lia|]. destruct s as [|c s]; simpl; [reflexivity|].
    rewrite IH; [reflexivity | lia].
Qed.

Lemma substring_0_append (a b : string) :
  substring 0 (String.length a) (a ++ b) = a.
Proof.
  induction a as [|c a IH]; simpl.
  - destruct b; reflexivity.
  - now rewrite IH.
Qed.

Lemma length_append (a b : string) :
  String.length (a ++ b) = String.length a + String.length b.
Proof. induction a as [|c a IH]; simpl; [reflexivity | now rewrite IH]. Qed.

(** ** Availability *)

Lemma available_enabled (p : provider) :
  Provider.is_available p = true -> enabled p = true.
Proof.
  unfold Provider.is_available, OpenAIProvider.is_available,
    GeminiProvider.is_available, OpenRouterProvider.is_available,
    MockProvider.is_available, AIProvider.is_available.
  destruct (cls p); intros H; try exact H;
    apply andb_prop in H; tauto.
Qed.

Lemma first_available_head (m : AIManager.t) :
  AIManager.first_available m
  = match available_entries m with
    | [] => None
    | np :: _ => Some (snd np)
    end.
Proof.
  unfold AIManager.first_available, available_entries.
  induction (AIManager.providers m) as [|[n q] ps IH]; simpl; [reflexivity|].
  destruct (Provider.is_available q); simpl; [reflexivity | exact IH].
Qed.

Lemma available_names (m : AIManager.t) :
  AIManager.get_available_providers m = map fst (available_entries m).
Proof. reflexivity. Qed.

(** ** Construction *)

(** X1. Creating an OpenAI or a Gemini adapter never raises, whatever the
    key and whether or not the SDK can be imported; the adapter is
    available exactly when the key is set and the import succeeded, and its
    usage info reports the key as present even when the import failed. *)
Theorem sdk_adapter_construction (W : world) (k : option string) :
  (exists p, OpenAIProvider.new W k = Ok p
     /\ Provider.is_available p = truthy k && import_openai W
     /\ AIProvider.get_usage_info p
        = {| u_name := "OpenAI"; u_enabled := truthy k && import_openai W;
             u_has_api_key := truthy k |})
  /\ (exists p, GeminiProvider.new W k = Ok p
        /\ Provider.is_available p = truthy k && import_genai W
        /\ AIProvider.get_usage_info p
           = {| u_name := "Gemini"; u_enabled := truthy k && import_genai W;
                u_has_api_key := truthy k |}).
Proof.
  split; eexists; (split; [reflexivity|]).
  - unfold OpenAIProvider.init.
    destruct (truthy k) eqn:T; [destruct (import_openai W)|];
      unfold Provider.is_available, OpenAIProvider.is_available,
        AIProvider.get_usage_info; simpl; rewrite ?T; auto.
  - unfold GeminiProvider.init.
    destruct (truthy k) eqn:T; [destruct (import_genai W)|];
      unfold Provider.is_available, GeminiProvider.is_available,
        AIProvider.get_usage_info; simpl; rewrite ?T; auto.
Qed.

Lemma new_without_openrouter (W : world) (cfg : Config) :
  truthy (OPENROUTER_API_KEY cfg) = false ->
  AIManager.new W cfg
  = Ok {| AIManager.config := cfg;
          AIManager.providers :=
            ((if truthy (OPENAI_API_KEY cfg)
              then [("openai", OpenAIProvider.init W (OPENAI_API_KEY cfg))]
              else []) ++
             (if truthy (GEMINI_API_KEY cfg)
              then [("gemini", GeminiProvider.init W (GEMINI_API_KEY cfg))]
              else []))%list |}.
Proof.
  intros T. unfold AIManager.new, AIManager.load_providers.
  rewrite openai_new, gemini_new, T.
  destruct (truthy (OPENAI_API_KEY cfg)), (truthy (GEMINI_API_KEY cfg));
    reflexivity.
Qed.

(** X2. When the OpenRouter credential is not set, building the manager
    succeeds and registers exactly the adapters whose credential is set,
    [openai] before [gemini]. *)
Theorem manager_built_without_openrouter (W : world) (cfg : Config) :
  truthy (OPENROUTER_API_KEY cfg) = false ->
  AIManager.new W cfg
  = Ok {| AIManager.config := cfg;
          AIManager.providers :=
            ((if truthy (OPENAI_API_KEY cfg)
              then [("openai", OpenAIProvider.init W (OPENAI_API_KEY cfg))]
              else []) ++
             (if truthy (GEMINI_API_KEY cfg)
              then [("gemini", GeminiProvider.init W (GEMINI_API_KEY cfg))]
              else []))%list |}.
Proof. exact (new_without_openrouter W cfg). Qed.

Lemma manager_built_without_openrouter_witness :
  AIManager.new (replying "ok") both_configured = Ok both_manager.
Proof.
  exact (manager_built_without_openrouter (replying "ok") both_configured
           eq_refl).
Defined.

(** X3. In a manager that could be built, the status mapping lists the
    registered adapters in order; every entry has its key present, and an
    entry is disabled exactly when the SDK of its backend failed to
    import. *)
Theorem status_of_built_manager (W : world) (cfg : Config) (m : AIManager.t) :
  AIManager.new W cfg = Ok m ->
  AIManager.get_provider_status m
  = ((if truthy (OPENAI_API_KEY cfg)
      then [("openai", {| u_name := "OpenAI"; u_enabled := import_openai W;
                          u_has_api_key := true |})]
      else []) ++
     (if truthy (GEMINI_API_KEY cfg)
      then [("gemini", {| u_name := "Gemini"; u_enabled := import_genai W;
                          u_has_api_key := true |})]
      else []))%list.
Proof.
  unfold AIManager.new. intros H.
  destruct (AIManager.load_providers W cfg) as [ps|e] eqn:E; [|discriminate].
  injection H as <-. destruct (load_providers_ok W cfg ps E) as [_ ->].
  unfold AIManager.get_provider_status, OpenAIProvider.init,
    GeminiProvider.init. simpl.
  destruct (truthy (OPENAI_API_KEY cfg)) eqn:T1,
    (truthy (GEMINI_API_KEY cfg)) eqn:T2;
    destruct (import_openai W), (import_genai W); simpl;
    unfold AIProvider.get_usage_info; simpl; rewrite ?T1, ?T2; reflexivity.
Qed.

Lemma status_of_built_manager_witness :
  AIManager.get_provider_status sdk_missing_manager
  = [("openai", {| u_name := "OpenAI"; u_enabled := false;
                   u_has_api_key := true |})].
Proof.
  exact (status_of_built_manager (replying_without_sdk "ok") openai_only
           sdk_missing_manager eq_refl).
Defined.

(** X4. Every name that [get_available_providers] lists has an entry in
    [get_provider_status], and that entry is enabled. *)
Theorem available_names_enabled_in_status (m : AIManager.t) (n : string) :
  In n (AIManager.get_available_providers m) ->
  exists info, In (n, info) (AIManager.get_provider_status m)
               /\ u_enabled info = true.
Proof.
  unfold AIManager.get_available_providers, AIManager.get_provider_status.
  intros H. apply in_map_iff in H. destruct H as ([n' p] & <- & H).
  apply filter_In in H. destruct H as [Hin Av]. simpl in *.
  exists (AIProvider.get_usage_info p). split.
  - apply in_map_iff. now exists (n', p).
  - simpl. now apply available_enabled.
Qed.

Lemma available_names_enabled_in_status_witness :
  exists info, In ("gemini", info) (AIManager.get_provider_status both_manager)
               /\ u_enabled info = true.
Proof.
  apply (available_names_enabled_in_status both_manager "gemini").
  simpl. auto.
Defined.

(** ** Selection *)

(** X5. Whatever [get_provider] returns is registered in the manager and
    passes [is_available]: its name is one of [get_available_providers]. *)
Theorem get_provider_returns_available (m : AIManager.t)
  (name : option string) (p : provider) :
  AIManager.get_provider m name = Ok p ->
  Provider.is_available p = true
  /\ exists n, In (n, p) (AIManager.providers m)
               /\ In n (AIManager.get_available_providers m).
Proof.
  intros H. destruct (get_provider_registered m name p H) as (n & Hin & Av).
  split; [exact Av|]. exists n. split; [exact Hin|].
  unfold AIManager.get_available_providers. apply in_map_iff.
  exists (n, p). split; [reflexivity|]. apply filter_In. auto.
Qed.

Lemma get_provider_returns_available_witness :
  Provider.is_available gemini_ready = true
  /\ exists n, In (n, gemini_ready) (AIManager.providers both_manager)
               /\ In n (AIManager.get_available_providers both_manager).
Proof.
  apply (get_provider_returns_available both_manager (Some "gemini")).
  reflexivity.
Defined.

(** X6. [get_provider] returns an adapter exactly when some registered
    adapter is available; the name asked for plays no part in that. *)
Theorem get_provider_succeeds_iff_some_available (m : AIManager.t)
  (name : option string) :
  (exists p, AIManager.get_provider m name = Ok p)
  <-> AIManager.get_available_providers m <> [].
Proof.
  split.
  - intros [p H] E. destruct (none_available m name E) as [R F].
    unfold AIManager.get_provider in H. rewrite R, F in H.
    unfold AIManager._create_mock_provider in H. rewrite mock_new in H.
    discriminate.
  - intros H. unfold AIManager.get_provider.
    destruct (AIManager.requested m name) as [p|]; [now exists p|].
    rewrite first_available_head. rewrite available_names in H.
    destruct (available_entries m) as [|np rest]; [now elim H|].
    now exists (snd np).
Qed.

(** X7. A name that is registered and whose adapter is available gets
    exactly the adapter stored under that name, whatever else is
    registered before it. *)
Theorem get_provider_named (m : AIManager.t) (n : string) (p : provider) :
  n <> EmptyString ->
  dict_get n (AIManager.providers m) = Some p ->
  Provider.is_available p = true ->
  AIManager.get_provider m (Some n) = Ok p.
Proof.
  intros Hn G Av. apply get_provider_requested; auto.
  destruct n; [now elim Hn | reflexivity].
Qed.

Lemma get_provider_named_witness :
  AIManager.get_provider both_manager (Some "gemini") = Ok gemini_ready.
Proof.
  apply get_provider_named; [discriminate | reflexivity | reflexivity].
Defined.

(** X8. A name that is empty, not registered, or registered with an
    adapter that is not available is ignored: the call behaves as the call
    without a name. *)
Theorem get_provider_ignores_unusable_name (m : AIManager.t) (n : string) :
  n = EmptyString
  \/ dict_get n (AIManager.providers m) = None
  \/ (exists q, dict_get n (AIManager.providers m) = Some q
                /\ Provider.is_available q = false) ->
  AIManager.get_provider m (Some n) = AIManager.get_provider m None.
Proof.
  intros H. unfold AIManager.get_provider.
  assert (R : AIManager.requested m (Some n) = None).
  { unfold AIManager.requested.
    destruct H as [->|[G|(q & G & Av)]]; [reflexivity| |].
    - rewrite G. now destruct (truthy (Some n)).
    - rewrite G, Av. now destruct (truthy (Some n)). }
  now rewrite R.
Qed.

Lemma get_provider_ignores_unusable_name_witness :
  AIManager.get_provider both_manager (Some "openrouter")
  = AIManager.get_provider both_manager None.
Proof.
  apply get_provider_ignores_unusable_name. right. left. reflexivity.
Defined.

(** X9. Without a usable name the adapter returned is the first one, in
    registration order, that passes [is_available]: the one whose name
    heads [get_available_providers]. *)
Theorem get_provider_default_is_first_available (m : AIManager.t)
  (n : string) (p : provider) (rest : list (string * provider)) :
  available_entries m = (n, p) :: rest ->
  AIManager.get_provider m None = Ok p
  /\ AIManager.get_available_providers m = n :: map fst rest
  /\ exists before after,
       AIManager.providers m = (before ++ (n, p) :: after)%list
       /\ forallb (fun np => negb (Provider.is_available (snd np))) before
          = true.
Proof.
  intros H. split; [|split].
  - unfold AIManager.get_provider. simpl.
    rewrite first_available_head, H. reflexivity.
  - rewrite available_names, H. reflexivity.
  - unfold available_entries in H. revert H.
    induction (AIManager.providers m) as [|[n' q] ps IH]; simpl;
      [discriminate|].
    destruct (Provider.is_available q) eqn:Av.
    + intros E. injection E as -> -> _. exists [], ps. auto.
    + intros E. destruct (IH E) as (before & after & -> & B).
      exists ((n', q) :: before), after. simpl. rewrite Av. auto.
Qed.

Lemma get_provider_default_is_first_available_witness :
  AIManager.get_provider both_manager None = Ok openai_ready.
Proof.
  apply (get_provider_default_is_first_available both_manager "openai"
           openai_ready [("gemini", gemini_ready)]).
  reflexivity.
Defined.

(** X10. In a manager built with a usable OpenAI credential the OpenAI
    adapter is returned for every request except one that names
    [gemini]: it is registered first. *)
Theorem openai_has_priority (W : world) (cfg : Config) (m : AIManager.t)
  (name : option string) :
  AIManager.new W cfg = Ok m ->
  truthy (OPENAI_API_KEY cfg) = true ->
  import_openai W = true ->
  name <> Some "gemini" ->
  AIManager.get_provider m name = Ok (OpenAIProvider.init W (OPENAI_API_KEY cfg)).
Proof.
  unfold AIManager.new. intros H T I Hn.
  destruct (AIManager.load_providers W cfg) as [ps|e] eqn:E; [|discriminate].
  injection H as <-. destruct (load_providers_ok W cfg ps E) as [_ ->].
  rewrite T.
  assert (Av : Provider.is_available (OpenAIProvider.init W (OPENAI_API_KEY cfg))
               = true).
  { unfold OpenAIProvider.init. rewrite T, I.
    unfold Provider.is_available, OpenAIProvider.is_available. simpl.
    now rewrite T. }
  unfold AIManager.get_provider, AIManager.requested,
    AIManager.first_available. simpl.
  destruct name as [n|]; [|now rewrite Av].
  destruct (truthy (Some n)); [|now rewrite Av].
  destruct (String.eqb_spec n "openai") as [->|Ho]; [now rewrite Av|].
  destruct (truthy (GEMINI_API_KEY cfg)); simpl.
  - destruct (String.eqb_spec n "gemini") as [->|_]; [now elim Hn|].
    now rewrite Av.
  - now rewrite Av.
Qed.

Lemma openai_has_priority_witness :
  AIManager.get_provider both_manager (Some "claude") = Ok openai_ready.
Proof.
  apply (openai_has_priority (replying "ok") both_configured both_manager
           (Some "claude")); [reflexivity|reflexivity|reflexivity|discriminate].
Defined.

(** X11. When every credential that is set belongs to a backend whose SDK
    cannot be imported (and the OpenRouter credential is not set), the
    manager is built, but [get_provider] raises [TypeError] for every
    name: the registered adapters are all unavailable. *)
Theorem missing_sdk_manager_raises (W : world) (cfg : Config) :
  truthy (OPENROUTER_API_KEY cfg) = false ->
  (truthy (OPENAI_API_KEY cfg) = true -> import_openai W = false) ->
  (truthy (GEMINI_API_KEY cfg) = true -> import_genai W = false) ->
  exists m, AIManager.new W cfg = Ok m
            /\ AIManager.get_available_providers m = []
            /\ forall name, AIManager.get_provider m name = Raise abstract_mock.
Proof.
  intros T Ho Hg. eexists. split; [now apply new_without_openrouter|].
  assert (A : AIManager.get_available_providers
                {| AIManager.config := cfg;
                   AIManager.providers :=
                     ((if truthy (OPENAI_API_KEY cfg)
                       then [("openai", OpenAIProvider.init W (OPENAI_API_KEY cfg))]
                       else []) ++
                      (if truthy (GEMINI_API_KEY cfg)
                       then [("gemini", GeminiProvider.init W (GEMINI_API_KEY cfg))]
                       else []))%list |} = []).
  { unfold AIManager.get_available_providers, OpenAIProvider.init,
      GeminiProvider.init. simpl.
    destruct (truthy (OPENAI_API_KEY cfg)) eqn:T1;
      [rewrite (Ho eq_refl)|];
      (destruct (truthy (GEMINI_API_KEY cfg)) eqn:T2;
       [rewrite (Hg eq_refl)|]); reflexivity. }
  split; [exact A|].
  intros name. destruct (none_available _ name A) as [R F].
  unfold AIManager.get_provider. now rewrite R, F.
Qed.

Lemma missing_sdk_manager_raises_witness :
  exists m, AIManager.new (replying_without_sdk "ok") openai_only = Ok m
            /\ AIManager.get_available_providers m = []
            /\ forall name, AIManager.get_provider m name = Raise abstract_mock.
Proof.
  apply missing_sdk_manager_raises;
    [reflexivity | reflexivity | discriminate].
Defined.

(** ** Degradation inside an adapter *)

Ltac unfold_generate :=
  unfold Provider.generate_file_analysis, Provider._mock_file_analysis,
    Provider.generate_repository_summary, Provider._mock_repository_summary,
    Provider.generate_architecture_diagram, Provider._mock_architecture_diagram,
    Provider.file_analysis_request, Provider.repository_summary_request,
    architecture_diagram_request, Provider.is_available,
    OpenAIProvider.generate_file_analysis,
    OpenAIProvider.generate_repository_summary,
    OpenAIProvider.generate_architecture_diagram,
    GeminiProvider.generate_file_analysis,
    GeminiProvider.generate_repository_summary,
    GeminiProvider.generate_architecture_diagram,
    OpenRouterProvider.generate_file_analysis,
    OpenRouterProvider.generate_repository_summary,
    OpenRouterProvider.generate_architecture_diagram in *.

(** X12. An adapter that is not available answers each of the three tasks
    with its own mock result, whatever the backend would have replied. *)
Theorem unavailable_adapter_returns_mock (W : world) (self : provider)
  (fi : file_info) (rd : repo_data) (file_analyses : list Json.value) :
  Provider.is_available self = false ->
  Provider.generate_file_analysis W self fi
  = Provider._mock_file_analysis self fi
  /\ Provider.generate_repository_summary W self rd file_analyses
     = Provider._mock_repository_summary self rd
  /\ Provider.generate_architecture_diagram W self rd
     = Provider._mock_architecture_diagram self rd.
Proof.
  intros Av. unfold_generate.
  destruct (cls self); try rewrite Av; repeat split; reflexivity.
Qed.

Lemma unavailable_adapter_returns_mock_witness :
  Provider.generate_file_analysis (replying "{}") openai_without_sdk app_py
  = OpenAIProvider._mock_file_analysis app_py.
Proof.
  apply (unavailable_adapter_returns_mock (replying "{}") openai_without_sdk
           app_py demo_repo []).
  reflexivity.
Defined.

(** X13. When the remote call for a task fails, the adapter returns its own
    mock result for that task; for a file the mock holds all six keys and
    carries the name of the file. *)
Theorem failed_call_returns_mock (W : world) (self : provider)
  (fi : file_info) (rd : repo_data) (file_analyses : list Json.value) :
  (forall req,
     In (Some req)
        [Provider.file_analysis_request self fi;
         Provider.repository_summary_request self rd file_analyses;
         architecture_diagram_request self rd] ->
     exists e, backend_reply W req = Raise e) ->
  Provider.generate_file_analysis W self fi
  = Provider._mock_file_analysis self fi
  /\ fully_populated (Provider.generate_file_analysis W self fi) = true
  /\ Json.get "file_name" (Provider.generate_file_analysis W self fi)
     = Some (Json.Str (f_name fi))
  /\ Provider.generate_repository_summary W self rd file_analyses
     = Provider._mock_repository_summary self rd
  /\ Provider.generate_architecture_diagram W self rd
     = Provider._mock_architecture_diagram self rd.
Proof.
  intros H.
  assert (F : Provider.generate_file_analysis W self fi
              = Provider._mock_file_analysis self fi).
  { unfold_generate. destruct (cls self); try reflexivity;
      (match goal with
       | |- (if ?c then _ else _) = _ => destruct c; [reflexivity|]
       end;
       match goal with
       | |- match backend_reply W ?r with _ => _ end = _ =>
           destruct (H r) as [e ->]; [simpl; auto | reflexivity]
       end). }
  split; [exact F|]. rewrite F.
  split; [apply mock_fully_populated|].
  split; [unfold Provider._mock_file_analysis; destruct (cls self);
          reflexivity|].
  unfold_generate. destruct (cls self); split; try reflexivity;
    (match goal with
     | |- (if ?c then _ else _) = _ => destruct c; [reflexivity|]
     end;
     match goal with
     | |- match backend_reply W ?r with _ => _ end = _ =>
         destruct (H r) as [e ->]; [simpl; auto | reflexivity]
     end).
Qed.

Lemma failed_call_returns_mock_witness :
  Provider.generate_file_analysis unreachable openai_ready app_py
  = OpenAIProvider._mock_file_analysis app_py
  /\ Provider.generate_architecture_diagram unreachable openai_ready demo_repo
     = Some (OpenAIProvider._mock_architecture_diagram demo_repo).
Proof.
  destruct (failed_call_returns_mock unreachable openai_ready app_py
              demo_repo []) as (H1 & _ & _ & _ & H5).
  - intros req _. now exists (BackendError "HTTP 503").
  - split; [exact H1 | exact H5].
Defined.



(** X15. The content of the reply to a diagram request of an available
    adapter is returned as it is, a str or [None]: no search for a block,
    no parsing, no check that it is not empty. *)
Theorem diagram_reply_is_verbatim (W : world) (self : provider)
  (rd : repo_data) (req : request) (content : option string) :
  Provider.is_available self = true ->
  architecture_diagram_request self rd = Some req ->
  backend_reply W req = Ok content ->
  Provider.generate_architecture_diagram W self rd = content.
Proof.
  intros Av Hreq Hreply. unfold_generate.
  destruct (cls self); try discriminate; injection Hreq as <-;
    now rewrite Av, Hreply.
Qed.

Lemma diagram_reply_is_verbatim_witness :
  Provider.generate_architecture_diagram (replying "{}") openai_ready demo_repo
  = Some "{}".
Proof.
  apply (diagram_reply_is_verbatim (replying "{}") openai_ready demo_repo
           (OpenAIProvider.architecture_diagram_request openai_ready demo_repo));
    reflexivity.
Defined.

(** ** The content excerpt *)

Lemma capped_length (c : string) : String.length (capped c) <= 4015.
Proof.
  unfold capped, truncation_marker.
  destruct (Nat.ltb_spec 4000 (String.length c)) as [L|L]; [|lia].
  rewrite length_append, substring_0_length.
  change (String.length "... [truncated]") with 15. lia.
Qed.

(** X16. [generate_file_analysis] of an available real adapter puts one
    request to the backend, and the text of that request is the preamble
    followed by an excerpt of at most 4015 characters, whatever the size of
    the file. *)
Theorem request_text_bounded (self : provider) (fi : file_info) :
  cls self <> Mock ->
  Provider.is_available self = true ->
  exists req excerpt,
    (forall W,
       Provider.generate_file_analysis W self fi
       = match backend_reply W req with
         | Ok content => file_analysis_of_content W fi content
         | Raise _ => Provider._mock_file_analysis self fi
         end)
    /\ user_content req = [Text (request_preamble (cls self) fi ++ excerpt)]
    /\ String.length excerpt <= 4015.
Proof.
  intros NM Av. destruct (file_analysis_call self fi NM Av) as (req & U & G).
  exists req, (capped (f_content fi)).
  split; [exact G|]. split; [exact U|]. apply capped_length.
Qed.

Lemma request_text_bounded_witness :
  exists req excerpt,
    (forall W,
       Provider.generate_file_analysis W openai_ready long_file
       = match backend_reply W req with
         | Ok content => file_analysis_of_content W long_file content
         | Raise _ => Provider._mock_file_analysis openai_ready long_file
         end)
    /\ user_content req
       = [Text (request_preamble OpenAI long_file ++ excerpt)]
    /\ String.length excerpt <= 4015.
Proof.
  apply (request_text_bounded openai_ready long_file);
    [discriminate | reflexivity].
Defined.

(** X17. Capping composes: the cut the walker makes at 10000 characters
    does not change the excerpt an adapter sends, and capping an excerpt
    again leaves it as it is (the marker is not doubled). *)
Theorem capping_composes (content : string) :
  capped (walker_content content) = capped content
  /\ capped (capped content) = capped content.
Proof.
  unfold capped, walker_content, truncation_marker. split.
  - rewrite substring_0_length.
    destruct (Nat.ltb_spec 4000 (String.length content)) as [L|L].
    + destruct (Nat.ltb_spec 4000 (Nat.min (10 * 1000) (String.length content)))
        as [L'|L']; [|lia].
      rewrite substring_0_twice; [reflexivity | lia].
    + destruct (Nat.ltb_spec 4000 (Nat.min (10 * 1000) (String.length content)))
        as [L'|L']; [lia|].
      apply substring_0_all. lia.
  - destruct (Nat.ltb_spec 4000 (String.length content)) as [L|L].
    + assert (Hl : String.length (substring 0 4000 content) = 4000)
        by (rewrite substring_0_length; lia).
      rewrite length_append, Hl.
      change (String.length "... [truncated]") with 15.
      destruct (Nat.ltb_spec 4000 (4000 + 15)) as [_|]; [|lia].
      pose proof (substring_0_append (substring 0 4000 content)
                    "... [truncated]") as A.
      rewrite Hl in A. now rewrite A.
    + destruct (Nat.ltb_spec 4000 (String.length content)); [lia|reflexivity].
Qed.

(** ** The block search *)

(** X18. The search returns a block exactly when the text holds an opening
    brace with a closing brace after it, and the block then runs from the
    first opening brace of the text to its last closing brace. *)
Theorem block_search_first_to_last (s m : string) :
  re.search s = Some m
  <-> exists pre mid post,
        s = pre ++ "{" ++ mid ++ "}" ++ post /\ m = "{" ++ mid ++ "}"
        /\ occurs "{"%char pre = false /\ occurs "}"%char post = false.
Proof.
  split.
  - apply search_some.
  - intros (pre & mid & post & -> & -> & Hpre & Hpost).
    now apply search_first_to_last.
Qed.

(** X19. A block that was found is its own block: searching it again
    returns it unchanged, and it is never longer than the text. *)
Theorem block_search_idempotent (s m : string) :
  re.search s = Some m ->
  re.search m = Some m /\ String.length m <= String.length s.
Proof.
  intros H. destruct (search_some s m H) as (pre & mid & post & -> & -> & _).
  split.
  - pose proof (search_first_to_last EmptyString mid EmptyString
                  eq_refl eq_refl) as S.
    simpl in S. simpl. exact S.
  - simpl. rewrite !length_append. simpl. rewrite !length_append. simpl.
    lia.
Qed.

Lemma block_search_idempotent_witness :
  re.search "{a} and {b}" = Some "{a} and {b}"
  /\ String.length "{a} and {b}" <= String.length "Sure: {a} and {b}. Done".
Proof.
  apply (block_search_idempotent "Sure: {a} and {b}. Done" "{a} and {b}").
  reflexivity.
Defined.

(** ** The entry points of the manager *)

(** X20. When some registered adapter is available, none of the three
    entry points raises, whatever the name asked for and whatever the
    backend does. *)
Theorem entry_points_return_when_available (W : world) (m : AIManager.t)
  (fi : file_info) (rd : repo_data) (file_analyses : list Json.value)
  (name : option string) :
  AIManager.get_available_providers m <> [] ->
  exists p,
    AIManager.get_provider m name = Ok p
    /\ AIManager.generate_file_analysis W m fi name
       = Ok (Provider.generate_file_analysis W p fi)
    /\ AIManager.generate_repository_summary W m rd file_analyses name
       = Ok (Provider.generate_repository_summary W p rd file_analyses)
    /\ AIManager.generate_architecture_diagram W m rd name
       = Ok (Provider.generate_architecture_diagram W p rd).
Proof.
  intros H.
  assert (G : exists p, AIManager.get_provider m name = Ok p).
  { unfold AIManager.get_provider.
    destruct (AIManager.requested m name) as [p|]; [now exists p|].
    rewrite first_available_head. rewrite available_names in H.
    destruct (available_entries m) as [|np rest]; [now elim H|].
    now exists (snd np). }
  destruct G as [p G]. exists p.
  unfold AIManager.generate_file_analysis,
    AIManager.generate_repository_summary,
    AIManager.generate_architecture_diagram.
  rewrite G. repeat split; reflexivity.
Qed.

Lemma entry_points_return_when_available_witness :
  exists p,
    AIManager.get_provider openai_manager (Some "gemini") = Ok p
    /\ AIManager.generate_file_analysis unreachable openai_manager app_py
         (Some "gemini")
       = Ok (Provider.generate_file_analysis unreachable p app_py)
    /\ AIManager.generate_repository_summary unreachable openai_manager
         demo_repo [] (Some "gemini")
       = Ok (Provider.generate_repository_summary unreachable p demo_repo [])
    /\ AIManager.generate_architecture_diagram unreachable openai_manager
         demo_repo (Some "gemini")
       = Ok (Provider.generate_architecture_diagram unreachable p demo_repo).
Proof.
  apply entry_points_return_when_available. discriminate.
Defined.

(** ** The admin blueprint *)

Lemma dict_get_set_same {A : Type} (k : string) (v : A)
  (d : list (string * A)) :
  dict_get k (dict_set k v d) = Some v.
Proof.
  induction d as [|[k' v'] d IH]; simpl.
  - now rewrite String.eqb_refl.
  - destruct (String.eqb_spec k k') as [->|N]; simpl.
    + now rewrite String.eqb_refl.
    + apply String.eqb_neq in N. now rewrite N.
Qed.

Lemma dict_get_set_other {A : Type} (k k0 : string) (v : A)
  (d : list (string * A)) :
  k <> k0 -> dict_get k (dict_set k0 v d) = dict_get k d.
Proof.
  intros N. induction d as [|[k' v'] d IH]; simpl.
  - apply String.eqb_neq in N. now rewrite N.
  - destruct (String.eqb_spec k0 k') as [->|N']; simpl.
    + apply String.eqb_neq in N. now rewrite N.
    + destruct (String.eqb k k'); [reflexivity | exact IH].
Qed.

Lemma dict_get_absent {A : Type} (k : string) (d : list (string * A)) :
  ~ In k (dict_keys d) -> dict_get k d = None.
Proof.
  induction d as [|[k' v'] d IH]; simpl; [reflexivity|].
  intros H. destruct (String.eqb_spec k k') as [->|_].
  - elim H. now left.
  - apply IH. intros Hin. apply H. now right.
Qed.

Lemma no_admin_username (ns : list (string * Json.value)) :
  dict_keys ns = Config_names -> admin.getattr ns "ADMIN_USERNAME" = None.
Proof.
  intros H. apply dict_get_absent. rewrite H.
  unfold Config_names. simpl. intuition discriminate.
Qed.

Lemma login_effect (ns : list (string * Json.value))
  (req : admin.flask_request) (st : admin.process) :
  dict_keys ns = Config_names ->
  snd (admin.login ns req st) = st
  /\ (admin.method req = "POST" ->
      fst (admin.login ns req st) = admin.AttributeError "ADMIN_USERNAME")
  /\ (admin.method req <> "POST" ->
      fst (admin.login ns req st) = admin.Returned (admin.login_page None)).
Proof.
  intros H. unfold admin.login. rewrite (no_admin_username ns H).
  destruct (String.eqb_spec (admin.method req) "POST") as [E|N]; simpl.
  - split; [reflexivity|]. split; [reflexivity|]. intros C. now elim C.
  - split; [reflexivity|]. split; [intros C; now elim N | reflexivity].
Qed.

(** X21. [Config] binds no [ADMIN_USERNAME], so every POST to the login
    view raises [AttributeError] before any comparison is made; no call of
    the view, GET or POST, changes the session or the environment. *)
Theorem login_never_authenticates (ns : list (string * Json.value))
  (req : admin.flask_request) (st : admin.process) :
  dict_keys ns = Config_names ->
  snd (admin.login ns req st) = st
  /\ (admin.method req = "POST" ->
      fst (admin.login ns req st) = admin.AttributeError "ADMIN_USERNAME")
  /\ (admin.method req <> "POST" ->
      fst (admin.login ns req st) = admin.Returned (admin.login_page None)).
Proof. exact (login_effect ns req st). Qed.

Lemma login_never_authenticates_witness :
  snd (admin.login config_namespace post_login fresh_process) = fresh_process
  /\ fst (admin.login config_namespace post_login fresh_process)
     = admin.AttributeError "ADMIN_USERNAME".
Proof.
  destruct (login_never_authenticates config_namespace post_login
              fresh_process eq_refl) as (H1 & H2 & _).
  split; [exact H1 | apply H2; reflexivity].
Defined.

(** X22. From a session that is not authenticated, no sequence of requests
    to the login and dashboard views changes the environment or the
    session, and none of them is answered with the dashboard page: each is
    answered with the login page, a redirect to it, or the
    [AttributeError]. *)
Theorem unauthenticated_admin_is_inert (W : world) (cfg : Config)
  (ns : list (string * Json.value)) (st : admin.process)
  (calls : list admin.call) :
  dict_keys ns = Config_names ->
  admin.session_truthy (dict_get "admin_authenticated" (admin.session st))
  = false ->
  snd (admin.serve_all W cfg ns calls st) = st
  /\ Forall (fun o =>
               o = admin.Returned (admin.redirect "admin.login")
               \/ o = admin.Returned (admin.login_page None)
               \/ o = admin.AttributeError "ADMIN_USERNAME")
            (fst (admin.serve_all W cfg ns calls st)).
Proof.
  intros H A. induction calls as [|c calls IH]; simpl.
  - split; [reflexivity | constructor].
  - assert (S : admin.serve W cfg ns c st = (fst (admin.serve W cfg ns c st), st)
                /\ (fst (admin.serve W cfg ns c st)
                    = admin.Returned (admin.redirect "admin.login")
                    \/ fst (admin.serve W cfg ns c st)
                       = admin.Returned (admin.login_page None)
                    \/ fst (admin.serve W cfg ns c st)
                       = admin.AttributeError "ADMIN_USERNAME")).
    { destruct c as [req|req]; simpl.
      - destruct (login_effect ns req st H) as (H1 & H2 & H3).
        split.
        + rewrite <- H1 at 3. now destruct (admin.login ns req st).
        + destruct (String.eqb_spec (admin.method req) "POST") as [E|N];
            [right; right; now apply H2 | right; left; now apply H3].
      - unfold admin.dashboard, admin.login_required. rewrite A. simpl.
        split; [reflexivity | now left]. }
    destruct S as [S O]. rewrite S.
    destruct (admin.serve_all W cfg ns calls st) as [os st2]. simpl in *.
    destruct IH as [IH1 IH2]. split; [exact IH1|].
    constructor; assumption.
Qed.

Lemma unauthenticated_admin_is_inert_witness :
  snd (admin.serve_all (replying "ok") openai_only config_namespace
         [admin.to_login post_login; admin.to_dashboard post_keys]
         fresh_process)
  = fresh_process.
Proof.
  apply (unauthenticated_admin_is_inert (replying "ok") openai_only
           config_namespace fresh_process
           [admin.to_login post_login; admin.to_dashboard post_keys]);
    reflexivity.
Defined.

Lemma three_keys_distinct :
  upper "openai" ++ "_API_KEY" = "OPENAI_API_KEY"
  /\ upper "gemini" ++ "_API_KEY" = "GEMINI_API_KEY"
  /\ upper "openrouter" ++ "_API_KEY" = "OPENROUTER_API_KEY".
Proof. repeat split; reflexivity. Qed.

(** X23. A POST to the dashboard by an authenticated session stores each
    submitted key, stripped, under the environment variable of its
    provider and leaves the variable of a provider whose key was not
    submitted as it was; the page it answers with shows the status of the
    adapters built from the credentials [Config] was imported with, not
    from the keys just stored. *)
Theorem dashboard_post_stores_keys (W : world) (cfg : Config)
  (req : admin.flask_request) (st : admin.process) :
  admin.session_truthy (dict_get "admin_authenticated" (admin.session st))
  = true ->
  admin.method req = "POST" ->
  (forall k key,
     dict_get k (admin.form req) = Some key -> occurs "000"%char key = false) ->
  let st' := snd (admin.dashboard W cfg req st) in
  (forall provider,
     In provider ["openai"; "gemini"; "openrouter"] ->
     dict_get (upper provider ++ "_API_KEY") (admin.environ st')
     = match dict_get (provider ++ "_key") (admin.form req) with
       | Some key => Some (strip key)
       | None => dict_get (upper provider ++ "_API_KEY") (admin.environ st)
       end)
  /\ (forall m,
        AIManager.new W cfg = Ok m ->
        exists active,
          fst (admin.dashboard W cfg req st)
          = admin.Returned
              (admin.dashboard_page (AIManager.get_provider_status m) active))
  /\ (forall e,
        AIManager.new W cfg = Raise e ->
        fst (admin.dashboard W cfg req st) = admin.Raised e).
Proof.
  intros A P _.
  unfold admin.dashboard, admin.login_required, admin.dashboard_body.
  rewrite A, P. simpl negb. cbv iota. rewrite String.eqb_refl.
  split; [|split].
  - destruct (AIManager.new W cfg) as [m|e]; simpl;
      intros provider [<-|[<-|[<-|[]]]]; unfold admin.update_key; simpl;
      repeat match goal with
             | |- context [dict_get ?k (admin.form req)] =>
                 destruct (dict_get k (admin.form req)); simpl
             end;
      repeat first
        [ rewrite dict_get_set_same
        | rewrite dict_get_set_other by discriminate ];
      reflexivity.
  - intros m ->. eexists. reflexivity.
  - intros e ->. reflexivity.
Qed.

Lemma dashboard_post_stores_keys_witness :
  dict_get "OPENAI_API_KEY"
    (admin.environ
       (snd (admin.dashboard (replying "ok") openai_only post_keys
               admin_process)))
  = Some "sk-new".
Proof.
  destruct (dashboard_post_stores_keys (replying "ok") openai_only post_keys
              admin_process eq_refl eq_refl) as (H & _ & _).
  - intros k key G. simpl in G.
    repeat match type of G with
           | (if ?c then _ else _) = _ =>
               destruct c; [injection G as <-; reflexivity|]
           end.
    discriminate.
  - exact (H "openai" (or_introl eq_refl)).
Defined.

(** ** Which adapters can serve *)

(** X24. Whatever [get_provider] returns in a manager that could be built
    is the OpenAI or the Gemini adapter made from its credential: no
    request is served by an OpenRouter or a Mock adapter. *)
Theorem served_by_sdk_adapters_only (W : world) (cfg : Config)
  (m : AIManager.t) (name : option string) (p : provider) :
  AIManager.new W cfg = Ok m ->
  AIManager.get_provider m name = Ok p ->
  (p = OpenAIProvider.init W (OPENAI_API_KEY cfg)
   /\ truthy (OPENAI_API_KEY cfg) = true /\ import_openai W = true)
  \/ (p = GeminiProvider.init W (GEMINI_API_KEY cfg)
      /\ truthy (GEMINI_API_KEY cfg) = true /\ import_genai W = true).
Proof.
  intros Hm Hg.
  destruct (get_provider_registered m name p Hg) as (n & Hin & Av).
  destruct (registered_has_credential W cfg m Hm n p Hin) as [T E].
  assert (C : cls p = OpenAI \/ cls p = Gemini).
  { unfold AIManager.new in Hm.
    destruct (AIManager.load_providers W cfg) as [ps|e] eqn:L; [|discriminate].
    injection Hm as <-. destruct (load_providers_ok W cfg ps L) as [_ ->].
    simpl in Hin. apply in_app_or in Hin.
    destruct Hin as [Hin|Hin];
      [destruct (truthy (OPENAI_API_KEY cfg))
      |destruct (truthy (GEMINI_API_KEY cfg))];
      try contradiction; destruct Hin as [Hin|[]]; injection Hin as _ <-.
    - left. apply (init_cls W OpenAI).
    - right. apply (init_cls W Gemini). }
  destruct C as [C|C]; rewrite C in *; simpl in *; [left|right];
    (split; [exact E|]); (split; [exact T|]);
    rewrite E in Av.
  - unfold OpenAIProvider.init in Av. rewrite T in Av.
    destruct (import_openai W); [reflexivity|].
    unfold Provider.is_available in Av. simpl in Av.
    unfold OpenAIProvider.is_available in Av. simpl in Av. discriminate.
  - unfold GeminiProvider.init in Av. rewrite T in Av.
    destruct (import_genai W); [reflexivity|].
    unfold Provider.is_available in Av. simpl in Av.
    unfold GeminiProvider.is_available in Av. simpl in Av. discriminate.
Qed.

Lemma served_by_sdk_adapters_only_witness :
  (gemini_ready = OpenAIProvider.init (replying "ok")
                    (OPENAI_API_KEY both_configured)
   /\ truthy (OPENAI_API_KEY both_configured) = true
   /\ import_openai (replying "ok") = true)
  \/ (gemini_ready = GeminiProvider.init (replying "ok")
                       (GEMINI_API_KEY both_configured)
      /\ truthy (GEMINI_API_KEY both_configured) = true
      /\ import_genai (replying "ok") = true).
Proof.
  apply (served_by_sdk_adapters_only (replying "ok") both_configured
           both_manager (Some "gemini") gemini_ready); reflexivity.
Defined.

(** ** Concrete runs *)

Example re_search_two_blocks :
  re.search "Sure: {a} and {b}. Done" = Some "{a} and {b}".
Proof. reflexivity. Qed.

Example re_search_closing_first : re.search "} {" = None.
Proof. reflexivity. Qed.

Example json_loads_nested :
  Json.loads ("{" ++ quoted "a" ++ ": [1, 2.5, null], " ++ quoted "b" ++ ": {}}")
  = Ok (Json.Obj [("a", Json.Arr [Json.Int 1; Json.Float "2.5"; Json.Null]);
                  ("b", Json.Obj [])]).
Proof. reflexivity. Qed.

Example json_loads_extra_data : Json.loads "{} x" = Raise JSONDecodeError.
Proof. reflexivity. Qed.

(** One backend configured and healthy: it is the only available adapter,
    it is selected whatever name is asked for, and a failing call gives its
    own mock result. *)
Example one_backend_healthy :
  AIManager.new unreachable openai_only = Ok openai_manager
  /\ AIManager.get_available_providers openai_manager = ["openai"]
  /\ AIManager.get_provider openai_manager None = Ok openai_ready
  /\ AIManager.get_provider openai_manager (Some "gemini") = Ok openai_ready
  /\ AIManager.generate_file_analysis unreachable openai_manager app_py None
     = Ok (OpenAIProvider._mock_file_analysis app_py).
Proof. repeat split; reflexivity. Qed.

(** A reply whose content is [None]: the wrapped dict keeps the [None] as
    its description, the summary is the mock, the diagram is [None]. *)
Example null_content_run :
  Provider.generate_file_analysis null_content openai_ready app_py
  = wrapped_null app_py
  /\ fully_populated (wrapped_null app_py) = false
  /\ Provider.generate_repository_summary null_content openai_ready demo_repo []
     = OpenAIProvider._mock_repository_summary demo_repo
  /\ Provider.generate_architecture_diagram null_content openai_ready demo_repo
     = None.
Proof. repeat split; reflexivity. Qed.
